(** * The Binary adapter of psycopg (psycopg/adapter_binary.c)

    A shallow embedding of the C code of the adapter and the properties of
    its quoting protocol.

    The C functions work on pointers to Python objects, so the embedding is
    written with explicit state passing over a small object store:

    - a [pointer] is NULL, the address of one of the two static objects the
      file names ([Py_None], [isqlquoteType]) or the address of an object
      of the store;
    - the interpreter state holds the store, the error indicator of the
      Python runtime and the log of the calls made to libpq;
    - a computation that the C standard leaves undefined (dereferencing
      NULL, reading a [connectionObject] field of an object that is not a
      connection) has no result.

    Reference counts are not part of the model: [Py_INCREF], [Py_XINCREF],
    [Py_XDECREF] and [PQfreemem] are left as comments at the places where the
    source has them.  Allocation failures of the Python runtime itself are
    not modelled either; the allocation failure of libpq's escaping routine
    is (the routine returns NULL). *)

From Stdlib Require Import ZArith NArith String Ascii Bool Lia.
From stdpp Require Import base option list.

Local Open Scope string_scope.
Local Open Scope list_scope.

(** ** Pointers, objects and the interpreter state *)

Inductive pointer : Type :=
| NULL
| Py_None                (* &_Py_NoneStruct *)
| isqlquoteType          (* &isqlquoteType, microprotocols_proto.h *)
| Ref (a : nat).         (* an object of the store *)

Definition pointer_eqb (p q : pointer) : bool :=
  match p, q with
  | NULL, NULL => true
  | Py_None, Py_None => true
  | isqlquoteType, isqlquoteType => true
  | Ref a, Ref b => Nat.eqb a b
  | _, _ => false
  end.

Inductive PyExc : Type :=
| PyExc_TypeError
| PyExc_AttributeError
| PyExc_MemoryError.

(** The error indicator: the exception type and its message, when it has one
    ([PyErr_NoMemory] sets none). *)
Record exception : Type := Exception {
  exc_type : PyExc;
  exc_value : option string
}.

Inductive PyTypeObject : Type :=
| PyNone_Type
| PyType_Type
| PyString_Type
| PyBuffer_Type
| PyInt_Type
| connectionType
| binaryType.

(** What a buffer object answers to a read-buffer request: its bytes, or
    the exception raised by the object it views. *)
Inductive readbuffer : Type :=
| Readable (bytes : string)
| Unreadable (e : exception).

(** typedef struct { PyObject_HEAD; PyObject *wrapped; PyObject *buffer;
    PyObject *conn; } binaryObject;   (adapter_binary.h) *)
Record binaryObject : Type := BinaryObject {
  wrapped : pointer;
  buffer : pointer;
  conn : pointer
}.

(** libpq is an external library.  [PGconn] is its opaque connection type,
    [PG_VERSION_HEX] the version the extension was compiled against.  An
    escaping routine returns NULL ([None]) when it cannot allocate, or the
    zero-terminated string [to] it built (its characters up to the
    terminator) with the value it stored in [*to_length]. *)
Class Libpq : Type := {
  PGconn : Type;
  PG_VERSION_HEX : Z;
  PQescapeBytea : string -> option (string * N);
  PQescapeByteaConn : PGconn -> string -> option (string * N)
}.

Section Adapter.

Context `{Libpq}.

(** The two fields of connectionObject (connection.h) the adapter reads:
    [PGconn *pgconn], NULL once the connection is closed, and [int equote]. *)
Record connectionObject : Type := ConnectionObject {
  pgconn : option PGconn;
  equote : Z
}.

Inductive object : Type :=
| PyStringObject (ob_sval : string)
| PyBufferObject (b_view : readbuffer)
| PyIntObject (ob_ival : Z)
| connection (c : connectionObject)
| binary (b : binaryObject).

Inductive libpq_call : Type :=
| call_PQescapeBytea (from : string)
| call_PQescapeByteaConn (c : PGconn) (from : string).

Record state : Type := State {
  heap : list object;
  curexc : option exception;
  calls : list libpq_call
}.

(** ** State passing *)

Definition M (A : Type) : Type := state -> option (A * state).

Definition ret {A} (a : A) : M A := fun s => Some (a, s).

Definition bind {A B} (m : M A) (k : A -> M B) : M B :=
  fun s => match m s with
           | Some (a, s') => k a s'
           | None => None
           end.

Definition undefined {A} : M A := fun _ => None.

Notation "'let*' x ':=' m 'in' k" := (bind m (fun x => k))
  (at level 10, x pattern, m at level 100, k at level 200).

(** ** The Python runtime, as far as the adapter uses it *)

Definition ob_type (o : object) : PyTypeObject :=
  match o with
  | PyStringObject _ => PyString_Type
  | PyBufferObject _ => PyBuffer_Type
  | PyIntObject _ => PyInt_Type
  | connection _ => connectionType
  | binary _ => binaryType
  end.

Definition Py_TYPE (p : pointer) : M PyTypeObject := fun s =>
  match p with
  | NULL => None
  | Py_None => Some (PyNone_Type, s)
  | isqlquoteType => Some (PyType_Type, s)
  | Ref a => match heap s !! a with
             | Some o => Some (ob_type o, s)
             | None => None
             end
  end.

Definition PyString_Check (p : pointer) : M bool :=
  let* t := Py_TYPE p in
  ret (match t with PyString_Type => true | _ => false end).

Definition PyBuffer_Check (p : pointer) : M bool :=
  let* t := Py_TYPE p in
  ret (match t with PyBuffer_Type => true | _ => false end).

Definition PyErr_SetString (e : PyExc) (msg : string) : M unit := fun s =>
  Some (tt, State (heap s) (Some (Exception e (Some msg))) (calls s)).

Definition PyErr_NoMemory : M unit := fun s =>
  Some (tt, State (heap s) (Some (Exception PyExc_MemoryError None)) (calls s)).

(** PyObject_AsReadBuffer(obj, &buffer, &buffer_len): the bytes of a string
    or of a buffer object ([Some]), or -1 with the error indicator set
    ([None]).  The adapter calls it on strings and buffers only. *)
Definition PyObject_AsReadBuffer (p : pointer) : M (option string) := fun s =>
  match p with
  | Ref a =>
      match heap s !! a with
      | Some (PyStringObject bytes) => Some (Some bytes, s)
      | Some (PyBufferObject (Readable bytes)) => Some (Some bytes, s)
      | Some (PyBufferObject (Unreadable e)) =>
          Some (None, State (heap s) (Some e) (calls s))
      | Some _ =>
          Some (None, State (heap s)
                  (Some (Exception PyExc_TypeError
                           (Some "expected a readable buffer object")))
                  (calls s))
      | None => None
      end
  | NULL => None
  | _ => Some (None, State (heap s)
                 (Some (Exception PyExc_TypeError
                          (Some "expected a readable buffer object")))
                 (calls s))
  end.

(** A new object gets the next free address of the store. *)
Definition alloc (o : object) : M pointer := fun s =>
  Some (Ref (length (heap s)), State (heap s ++ [o]) (curexc s) (calls s)).

Definition PyString_FromString (str : string) : M pointer :=
  alloc (PyStringObject str).

(** The formats of the adapter hold one conversion, %s, which copies the
    zero-terminated argument. *)
Fixpoint format_s (format arg : string) : string :=
  match format with
  | EmptyString => EmptyString
  | String c rest =>
      if Ascii.eqb c "%" then
        match rest with
        | String d rest' =>
            if Ascii.eqb d "s" then String.append arg rest'
            else String c (format_s rest arg)
        | EmptyString => String c EmptyString
        end
      else String c (format_s rest arg)
  end.

Definition PyString_FromFormat (format arg : string) : M pointer :=
  alloc (PyStringObject (format_s format arg)).

(** PyArg_ParseTuple(args, "O", &o): a tuple of exactly one item, whose
    (borrowed) reference is stored; otherwise TypeError. *)
Definition PyArg_ParseTuple_O (args : list pointer) : M (option pointer) :=
  match args with
  | [o] => ret (Some o)
  | _ =>
      let* _ := PyErr_SetString PyExc_TypeError
                  "function takes exactly 1 argument" in
      ret None
  end.

(** ** Access to the fields of the C structures *)

Definition get_binary (self : nat) : M binaryObject := fun s =>
  match heap s !! self with
  | Some (binary b) => Some (b, s)
  | _ => None
  end.

Definition set_binary (self : nat) (b : binaryObject) : M unit := fun s =>
  match heap s !! self with
  | Some (binary _) =>
      Some (tt, State (<[self := binary b]> (heap s)) (curexc s) (calls s))
  | _ => None
  end.

Definition set_buffer (self : nat) (p : pointer) : M unit :=
  let* b := get_binary self in
  set_binary self (BinaryObject (wrapped b) p (conn b)).

Definition set_conn (self : nat) (p : pointer) : M unit :=
  let* b := get_binary self in
  set_binary self (BinaryObject (wrapped b) (buffer b) p).

(** (connectionObject* )p, to read a field: defined on connections only. *)
Definition as_connection (p : pointer) : M connectionObject := fun s =>
  match p with
  | Ref a => match heap s !! a with
             | Some (connection c) => Some (c, s)
             | _ => None
             end
  | _ => None
  end.

Definition libpq {A} (c : libpq_call) (result : A) : M A := fun s =>
  Some (result, State (heap s) (curexc s) (calls s ++ [c])).

(** ** the quoting code *)

(** binary_escape(from, from_length, to_length, conn) *)
Definition binary_escape (from : string) (conn : option PGconn)
  : M (option (string * N)) :=
  match (if (0x080104 <=? PG_VERSION_HEX)%Z then conn else None) with
  | Some c => libpq (call_PQescapeByteaConn c from) (PQescapeByteaConn c from)
  | None => libpq (call_PQescapeBytea from) (PQescapeBytea from)
  end.

(** self->conn ? ((connectionObject* )self->conn)->pgconn : NULL *)
Definition conn_pgconn (c : pointer) : M (option PGconn) :=
  match c with
  | NULL => ret None
  | _ => let* co := as_connection c in ret (pgconn co)
  end.

(** (self->conn && ((connectionObject* )self->conn)->equote) *)
Definition conn_equote (c : pointer) : M bool :=
  match c with
  | NULL => ret false
  | _ => let* co := as_connection c in ret (negb (equote co =? 0)%Z)
  end.

(** binary_quote - do the quote process on plain and unicode strings *)
Definition binary_quote (self : nat) : M pointer :=
  let* b := get_binary self in
  let* is_string := PyString_Check (wrapped b) in
  let* is_buffer := PyBuffer_Check (wrapped b) in
  if is_string || is_buffer then
    (* escape and build quoted buffer *)
    let* buf := PyObject_AsReadBuffer (wrapped b) in
    match buf with
    | None => ret NULL
    | Some from =>
        let* pg := conn_pgconn (conn b) in
        let* to := binary_escape from pg in
        match to with
        | None => let* _ := PyErr_NoMemory in ret NULL
        | Some (to, len) =>
            let* _ :=
              if (0 <? len)%N then
                let* e := conn_equote (conn b) in
                let* lit := PyString_FromFormat
                              (if e then "E'%s'::bytea" else "'%s'::bytea")
                              to in
                set_buffer self lit
              else
                let* lit := PyString_FromString "''::bytea" in
                set_buffer self lit in
            (* PQfreemem(to) *)
            let* b' := get_binary self in
            ret (buffer b')
        end
    end
  else
    (* if the wrapped object is not a string or a buffer, this is an error *)
    let* _ := PyErr_SetString PyExc_TypeError
                "can't escape non-string object" in
    ret NULL.

(** binary_str, binary_getquoted - return result of quoting *)
Definition binary_str (self : nat) : M pointer :=
  let* b := get_binary self in
  let* _ := match buffer b with
            | NULL => let* _ := binary_quote self in ret tt
            | _ => ret tt
            end in
  (* Py_XINCREF(self->buffer) *)
  let* b' := get_binary self in
  ret (buffer b').

Definition binary_getquoted (self : nat) : M pointer :=
  binary_str self.

Definition binary_prepare (self : nat) (args : list pointer) : M pointer :=
  let* parsed := PyArg_ParseTuple_O args in
  match parsed with
  | None => ret NULL
  | Some c =>
      (* Py_XDECREF(self->conn) *)
      let* _ := match c with
                | NULL => ret tt
                | _ => set_conn self c   (* and Py_INCREF(self->conn) *)
                end in
      (* Py_INCREF(Py_None) *)
      ret Py_None
  end.

Definition binary_conform (self : nat) (args : list pointer) : M pointer :=
  let* parsed := PyArg_ParseTuple_O args in
  match parsed with
  | None => ret NULL
  | Some proto =>
      let res := if pointer_eqb proto isqlquoteType
                 then Ref self else Py_None in
      (* Py_INCREF(res) *)
      ret res
  end.

(** ** the Binary object *)

(** object member list: both members are READONLY, and the attribute
    protocol of the runtime refuses to assign one. *)
Inductive member : Type := member_wrapped | member_buffer.

Definition READONLY : Z := 1.

Definition binaryObject_members : list (string * (member * Z)) :=
  [ ("adapted", (member_wrapped, READONLY));
    ("buffer", (member_buffer, READONLY)) ].

Fixpoint find_member (l : list (string * (member * Z))) (name : string)
  : option (member * Z) :=
  match l with
  | [] => None
  | (n, d) :: l' => if String.eqb n name then Some d else find_member l' name
  end.

Definition binary_setattr (self : nat) (name : string) (v : pointer) : M Z :=
  match find_member binaryObject_members name with
  | Some (m, flags) =>
      if negb (Z.land flags READONLY =? 0)%Z then
        let* _ := PyErr_SetString PyExc_TypeError "readonly attribute" in
        ret (-1)%Z
      else
        let* b := get_binary self in
        let* _ := match m with
                  | member_wrapped =>
                      set_binary self (BinaryObject v (buffer b) (conn b))
                  | member_buffer =>
                      set_binary self (BinaryObject (wrapped b) v (conn b))
                  end in
        ret 0%Z
  | None =>
      let* _ := PyErr_SetString PyExc_AttributeError
                  "object has no such attribute" in
      ret (-1)%Z
  end.

(** initialization and finalization methods *)

Definition binary_setup (self : nat) (str : pointer) : M Z :=
  let* _ := set_binary self (BinaryObject str NULL NULL) in
  (* Py_INCREF(str) *)
  ret 0%Z.

(** Py_VISIT(op): a field that is not NULL is passed to [visit] with
    [arg], and a result that is not zero ends the traversal.  [visit]
    works on the data [arg] points to. *)
Definition Py_VISIT {A} (visit : pointer -> A -> Z * A) (op : pointer)
    (arg : A) (next : A -> Z * A) : Z * A :=
  match op with
  | NULL => next arg
  | _ =>
      let (vret, arg') := visit op arg in
      if (vret =? 0)%Z then next arg' else (vret, arg')
  end.

Definition binary_traverse {A} (obj : nat) (visit : pointer -> A -> Z * A)
    (arg : A) : M (Z * A) :=
  let* self := get_binary obj in
  ret (Py_VISIT visit (wrapped self) arg (fun arg =>
       Py_VISIT visit (buffer self) arg (fun arg =>
       Py_VISIT visit (conn self) arg (fun arg =>
       (0%Z, arg))))).

Definition binary_init (obj : nat) (args : list pointer) : M Z :=
  let* parsed := PyArg_ParseTuple_O args in
  match parsed with
  | None => ret (-1)%Z
  | Some str => binary_setup obj str
  end.

(** tp_alloc returns zeroed memory: the three fields are NULL. *)
Definition binary_new : M pointer :=
  alloc (binary (BinaryObject NULL NULL NULL)).

(** Calling the type: tp_new, then tp_init on the new object. *)
Definition binaryType_call (args : list pointer) : M pointer :=
  let* obj := binary_new in
  match obj with
  | Ref a =>
      let* r := binary_init a args in
      if (r <? 0)%Z then ret NULL else ret obj
  | _ => undefined
  end.

(** module-level functions *)

Definition psyco_Binary (args : list pointer) : M pointer :=
  let* parsed := PyArg_ParseTuple_O args in
  match parsed with
  | None => ret NULL
  | Some str => binaryType_call [str]
  end.

End Adapter.

Notation "'let*' x ':=' m 'in' k" := (bind m (fun x => k))
  (at level 10, x pattern, m at level 100, k at level 200).

(** ** Vocabulary of the properties *)

Section Vocabulary.

Context `{Libpq}.

(** The call binary_escape makes for the bytes [from] and the libpq
    connection [pg], and what libpq answers to a call. *)
Definition escape_call (from : string) (pg : option PGconn) : libpq_call :=
  match (if (0x080104 <=? PG_VERSION_HEX)%Z then pg else None) with
  | Some c => call_PQescapeByteaConn c from
  | None => call_PQescapeBytea from
  end.

Definition call_result (c : libpq_call) : option (string * N) :=
  match c with
  | call_PQescapeBytea from => PQescapeBytea from
  | call_PQescapeByteaConn pg from => PQescapeByteaConn pg from
  end.

(** The string binary_quote builds from an answer of libpq. *)
Definition literal (to : string) (len : N) (e : bool) : string :=
  if (0 <? len)%N then
    format_s (if e then "E'%s'::bytea" else "'%s'::bytea") to
  else "''::bytea".

(** [p] points to a string or to a buffer whose bytes are [from]. *)
Inductive wraps_bytes (s : state) : pointer -> string -> Prop :=
| wraps_string a from :
    heap s !! a = Some (PyStringObject from) ->
    wraps_bytes s (Ref a) from
| wraps_buffer a from :
    heap s !! a = Some (PyBufferObject (Readable from)) ->
    wraps_bytes s (Ref a) from.

(** The conn field [p] is NULL, or points to a connection: the libpq
    connection and the flag binary_quote reads through it. *)
Inductive bound_to (s : state) : pointer -> option PGconn -> bool -> Prop :=
| bound_to_NULL :
    bound_to s NULL None false
| bound_to_connection a co :
    heap s !! a = Some (connection co) ->
    bound_to s (Ref a) (pgconn co) (negb (equote co =? 0)%Z).

(** The operations a program applies to an adapter once it is built. *)
Inductive operation : Type :=
| getquoted
| str
| prepare (args : list pointer)
| conform (args : list pointer)
| setattr (name : string) (v : pointer).

Definition run (self : nat) (o : operation) : M unit :=
  match o with
  | getquoted => bind (binary_getquoted self) (fun _ => ret tt)
  | str => bind (binary_str self) (fun _ => ret tt)
  | prepare args => bind (binary_prepare self args) (fun _ => ret tt)
  | conform args => bind (binary_conform self args) (fun _ => ret tt)
  | setattr name v => bind (binary_setattr self name v) (fun _ => ret tt)
  end.

Fixpoint run_all (self : nat) (os : list operation) : M unit :=
  match os with
  | [] => ret tt
  | o :: os' => bind (run self o) (fun _ => run_all self os')
  end.

(** The states of the lifetime of the adapter [self] built around [wr]:
    construction, then the operations above, while the rest of the program
    creates objects, clears the error indicator and changes other objects
    (a connection is closed and loses its [pgconn], the bytes behind a
    buffer change, another adapter is used); strings are immutable. *)
Inductive lifetime (allowed : operation -> Prop) (self : nat) (wr : pointer)
  : state -> Prop :=
| lifetime_Binary s0 s :
    psyco_Binary [wr] s0 = Some (Ref self, s) ->
    lifetime allowed self wr s
| lifetime_run s o s' :
    lifetime allowed self wr s ->
    allowed o ->
    run self o s = Some (tt, s') ->
    lifetime allowed self wr s'
| lifetime_alloc s o :
    lifetime allowed self wr s ->
    lifetime allowed self wr (State (heap s ++ [o]) (curexc s) (calls s))
| lifetime_clear s :
    lifetime allowed self wr s ->
    lifetime allowed self wr (State (heap s) None (calls s))
| lifetime_update s a o o' :
    lifetime allowed self wr s ->
    a <> self ->
    heap s !! a = Some o ->
    ob_type o' = ob_type o ->
    (forall v, o <> PyStringObject v) ->
    lifetime allowed self wr
      (State (<[a := o']> (heap s)) (curexc s) (calls s)).

(** Any operation may be applied to a reachable adapter; an adapter was
    never bound when prepare was not. *)
Definition reachable : nat -> pointer -> state -> Prop :=
  lifetime (fun _ => True).

Definition is_prepare (o : operation) : Prop :=
  match o with
  | prepare _ => True
  | _ => False
  end.

Definition never_bound : nat -> pointer -> state -> Prop :=
  lifetime (fun o => ~ is_prepare o).

(** Every run of binary_quote that returns is of one of two kinds: an
    error (NULL, the store unchanged, the error indicator set), or a new
    literal built from the answer to the one call made to libpq. *)
Definition quote_failed (s s' : state) : Prop :=
  heap s' = heap s /\ curexc s' <> None /\
  (calls s' = calls s \/
   exists c, calls s' = calls s ++ [c] /\ call_result c = None).

Definition quote_built (s : state) (self : nat) (b : binaryObject)
    (s' : state) : Prop :=
  exists from pg e to len,
    wraps_bytes s (wrapped b) from /\
    bound_to s (conn b) pg e /\
    call_result (escape_call from pg) = Some (to, len) /\
    heap s' = <[self := binary (BinaryObject (wrapped b)
                                  (Ref (length (heap s))) (conn b))]>
                (heap s ++ [PyStringObject (literal to len e)]) /\
    curexc s' = curexc s /\
    calls s' = calls s ++ [escape_call from pg].

Definition type_at (h : list object) (p : pointer) : option PyTypeObject :=
  match p with
  | NULL => None
  | Py_None => Some PyNone_Type
  | isqlquoteType => Some PyType_Type
  | Ref a => ob_type <$> h !! a
  end.

Definition is_bytes_type (t : PyTypeObject) : Prop :=
  t = PyString_Type \/ t = PyBuffer_Type.

(** The store only grows: an object keeps its address and its type, and a
    string keeps its value. *)
Definition grows (h h' : list object) : Prop :=
  forall a o, h !! a = Some o ->
    exists o', h' !! a = Some o' /\ ob_type o' = ob_type o /\
               (forall v, o = PyStringObject v -> o' = o).

(** The string at [a] is a literal built from the answer to a call of the
    log. *)
Definition cached (h : list object) (log : list libpq_call) (a : nat) : Prop :=
  exists c to len e,
    h !! a = Some (PyStringObject (literal to len e)) /\
    c ∈ log /\ call_result c = Some (to, len).

Definition adapter_invariant (self : nat) (wr : pointer) (s : state) : Prop :=
  exists b, heap s !! self = Some (binary b) /\ wrapped b = wr /\
    (buffer b = NULL \/
     exists a, buffer b = Ref a /\ cached (heap s) (calls s) a /\
       exists t, type_at (heap s) wr = Some t /\ is_bytes_type t).

(** libpq's convention for the length an escaping routine reports: it
    counts the terminating zero byte of the string. *)
Definition counts_terminator : Prop :=
  forall c to len,
    call_result c = Some (to, len) ->
    len = (N.of_nat (String.length to) + 1)%N.

(** The string at [a] is a literal built without a connection, from an
    answer of PQescapeBytea. *)
Definition cached_unbound (h : list object) (a : nat) : Prop :=
  exists from to len,
    h !! a = Some (PyStringObject (literal to len false)) /\
    PQescapeBytea from = Some (to, len).

Definition unbound_invariant (self : nat) (s : state) : Prop :=
  exists b, heap s !! self = Some (binary b) /\ conn b = NULL /\
    (buffer b = NULL \/
     exists a, buffer b = Ref a /\ cached_unbound (heap s) a).

(** The methods of the object that return a pointer: the method table and
    tp_str. *)
Inductive method : Type :=
| meth_getquoted
| meth_str
| meth_prepare (args : list pointer)
| meth_conform (args : list pointer).

Definition invoke (self : nat) (m : method) : M pointer :=
  match m with
  | meth_getquoted => binary_getquoted self
  | meth_str => binary_str self
  | meth_prepare args => binary_prepare self args
  | meth_conform args => binary_conform self args
  end.

(** The three shapes of a literal. *)
Definition bytea_literal (lit : string) : Prop :=
  lit = "''::bytea" \/
  exists to, lit = ("'" ++ to ++ "'::bytea")%string \/
             lit = ("E'" ++ to ++ "'::bytea")%string.

(** libpq answered the call [c] with a string. *)
Definition answered (c : libpq_call) : bool :=
  match call_result c with
  | Some _ => true
  | None => false
  end.

(** A traversal of a list of pointers with [visit], up to the first result
    that is not zero. *)
Fixpoint visit_list {A} (visit : pointer -> A -> Z * A) (l : list pointer)
    (arg : A) : Z * A :=
  match l with
  | [] => (0%Z, arg)
  | p :: l' =>
      let (vret, arg') := visit p arg in
      if (vret =? 0)%Z then visit_list visit l' arg' else (vret, arg')
  end.

Definition is_NULL (p : pointer) : bool :=
  match p with
  | NULL => true
  | _ => false
  end.

Definition references (b : binaryObject) : list pointer :=
  List.filter (fun p => negb (is_NULL p)) [wrapped b; buffer b; conn b].

(** The effect of one operation on the fields of the adapter and on the
    log: no call; or one call that libpq did not answer, and still no
    literal; or one call that it answered, and the first literal. *)
Definition effect (o : operation) (s s' : state) (b b' : binaryObject)
  : Prop :=
  wrapped b' = wrapped b /\
  ((calls s' = calls s /\ buffer b' = buffer b) \/
   (exists c, calls s' = calls s ++ [c] /\ answered c = false /\
      buffer b = NULL /\ buffer b' = NULL /\ (o = getquoted \/ o = str)) \/
   (exists c, calls s' = calls s ++ [c] /\ answered c = true /\
      buffer b = NULL /\ buffer b' <> NULL /\ (o = getquoted \/ o = str))) /\
  (conn b' = conn b \/ exists c, c <> NULL /\ o = prepare [c] /\ conn b' = c).

End Vocabulary.

Arguments state {_}.
Arguments object {_}.
Arguments connectionObject {_}.
Arguments libpq_call {_}.

(** ** Two instances of libpq

    The properties of the adapter are stated for every instance of [Libpq].
    The two instances below serve to run the adapter on concrete inputs. *)

Module EscapeFormat.

(** The "escape" format of bytea, as libpq's documentation describes it for
    PQescapeBytea (strings not standard-conforming): a byte outside the
    printable range becomes two backslashes and three octal digits, a quote
    is doubled, a backslash becomes four.  The length stored in
    [*to_length] counts the terminating zero byte of the result. *)

Definition octal (n : N) : ascii := ascii_of_N (48 + n).

Definition escape_byte (c : ascii) : string :=
  let v := N_of_ascii c in
  if ((v <? 0x20) || (0x7e <? v))%N then
    String "\" (String "\"
      (String (octal (N.shiftr v 6))
         (String (octal (N.land (N.shiftr v 3) 7))
            (String (octal (N.land v 7)) EmptyString))))
  else if Ascii.eqb c "'" then "''"
  else if Ascii.eqb c "\" then "\\\\"
  else String c EmptyString.

Fixpoint escape (from : string) : string :=
  match from with
  | EmptyString => EmptyString
  | String c rest => String.append (escape_byte c) (escape rest)
  end.

Definition escape_bytea (from : string) : option (string * N) :=
  Some (escape from, (N.of_nat (String.length (escape from)) + 1)%N).

(** Connections are told apart by a number; the extension is compiled
    against libpq 8.4. *)
#[export] Instance libpq : Libpq := {|
  PGconn := nat;
  PG_VERSION_HEX := 0x080400;
  PQescapeBytea := escape_bytea;
  PQescapeByteaConn := fun _ => escape_bytea
|}.

End EscapeFormat.

Module OutOfMemory.

(** A libpq whose escaping routines cannot allocate their output. *)
#[export] Instance libpq : Libpq := {|
  PGconn := nat;
  PG_VERSION_HEX := 0x080400;
  PQescapeBytea := fun _ => None;
  PQescapeByteaConn := fun _ _ => None
|}.

End OutOfMemory.

(** ** Concrete stores *)

Module Scenario.

Import EscapeFormat.

(** A string and two connections, the first with the equote flag set. *)
Definition with_equote : connectionObject := ConnectionObject (Some 7) 1.
Definition without_equote : connectionObject := ConnectionObject (Some 8) 0.

Definition store (v : string) : state :=
  State [PyStringObject v; connection with_equote; connection without_equote]
    None [].

(** The adapter built by Binary(v) in [store v] is the object 3. *)
Definition adapter (v : string) (buf c : pointer) (tail : list object)
    (log : list libpq_call) : state :=
  State ([PyStringObject v; connection with_equote;
          connection without_equote;
          binary (BinaryObject (Ref 0) buf c)] ++ tail)
    None log.

(** An integer, and the adapter built around it. *)
Definition store_int : state := State [PyIntObject 42] None [].

Definition adapter_int : state :=
  State [PyIntObject 42; binary (BinaryObject (Ref 0) NULL NULL)] None [].

End Scenario.

Module ScenarioOutOfMemory.

Import OutOfMemory.

Definition store : state := State [PyStringObject "ab"] None [].

Definition adapter (e : option exception) (log : list libpq_call) : state :=
  State [PyStringObject "ab"; binary (BinaryObject (Ref 0) NULL NULL)] e log.

End ScenarioOutOfMemory.

(** ** Properties *)

Section Properties.

Context `{Libpq}.

Implicit Types (s : state) (self : nat) (b : binaryObject) (p : pointer).

(** *** The store *)

Lemma lookup_adapter_lt s self b :
  heap s !! self = Some (binary b) -> self < length (heap s).
Proof. intros Hb. apply lookup_lt_Some in Hb. exact Hb. Qed.

Lemma lookup_alloc_old (h : list object) (o x : object) (a : nat) :
  h !! a = Some x -> (h ++ [o]) !! a = Some x.
Proof. intros Ha. rewrite lookup_app_l; eauto using lookup_lt_Some. Qed.

Lemma lookup_alloc_new (h : list object) (o : object) :
  (h ++ [o]) !! length h = Some o.
Proof. rewrite lookup_app_r by lia. rewrite Nat.sub_diag. reflexivity. Qed.

Lemma get_binary_at s self b :
  heap s !! self = Some (binary b) -> get_binary self s = Some (b, s).
Proof. intros Hb. unfold get_binary. rewrite Hb. reflexivity. Qed.

Lemma bind_eq {A B} (m : M A) (k : A -> M B) s a s1 :
  m s = Some (a, s1) -> bind m k s = k a s1.
Proof. intros Hm. unfold bind. rewrite Hm. reflexivity. Qed.

Lemma PyString_Check_type s p t :
  Py_TYPE p s = Some (t, s) ->
  PyString_Check p s =
    Some (match t with PyString_Type => true | _ => false end, s).
Proof. intros Ht. unfold PyString_Check, bind. rewrite Ht. reflexivity. Qed.

Lemma PyBuffer_Check_type s p t :
  Py_TYPE p s = Some (t, s) ->
  PyBuffer_Check p s =
    Some (match t with PyBuffer_Type => true | _ => false end, s).
Proof. intros Ht. unfold PyBuffer_Check, bind. rewrite Ht. reflexivity. Qed.

Lemma set_buffer_at s self b p :
  heap s !! self = Some (binary b) ->
  set_buffer self p s =
    Some (tt, State (<[self := binary (BinaryObject (wrapped b) p (conn b))]>
                       (heap s)) (curexc s) (calls s)).
Proof.
  intros Hb. unfold set_buffer, bind. rewrite (get_binary_at _ _ _ Hb).
  unfold set_binary. rewrite Hb. reflexivity.
Qed.

Lemma set_conn_at s self b p :
  heap s !! self = Some (binary b) ->
  set_conn self p s =
    Some (tt, State (<[self := binary (BinaryObject (wrapped b) (buffer b) p)]>
                       (heap s)) (curexc s) (calls s)).
Proof.
  intros Hb. unfold set_conn, bind. rewrite (get_binary_at _ _ _ Hb).
  unfold set_binary. rewrite Hb. reflexivity.
Qed.

(** *** binary_escape *)

Lemma binary_escape_call from pg s :
  binary_escape from pg s =
    Some (call_result (escape_call from pg),
          State (heap s) (curexc s) (calls s ++ [escape_call from pg])).
Proof.
  unfold binary_escape, escape_call.
  destruct (if (0x080104 <=? PG_VERSION_HEX)%Z then pg else None);
    reflexivity.
Qed.

Lemma escape_call_unbound from :
  escape_call from None = call_PQescapeBytea from.
Proof. unfold escape_call. destruct (_ <=? _)%Z; reflexivity. Qed.

(** *** binary_quote on an adapter that wraps bytes *)

Lemma wraps_bytes_checks s p from :
  wraps_bytes s p from ->
  (exists t, Py_TYPE p s = Some (t, s) /\
     (t = PyString_Type \/ t = PyBuffer_Type)) /\
  PyObject_AsReadBuffer p s = Some (Some from, s).
Proof.
  intros [a f Ha|a f Ha]; unfold Py_TYPE, PyObject_AsReadBuffer;
    rewrite Ha; simpl; eauto.
Qed.

Lemma bound_to_reads s p pg e :
  bound_to s p pg e ->
  conn_pgconn p s = Some (pg, s) /\ conn_equote p s = Some (e, s).
Proof.
  intros [|a co Ha]; [split; reflexivity|].
  unfold conn_pgconn, conn_equote, as_connection, bind, ret.
  rewrite Ha. split; reflexivity.
Qed.

(** What binary_quote does on an adapter that wraps the bytes [from]: one
    call to libpq; on NULL a MemoryError and nothing else; otherwise a new
    string, stored in the buffer field and returned. *)
Lemma binary_quote_bytes s self b from pg e :
  heap s !! self = Some (binary b) ->
  wraps_bytes s (wrapped b) from ->
  bound_to s (conn b) pg e ->
  binary_quote self s =
    match call_result (escape_call from pg) with
    | None =>
        Some (NULL,
              State (heap s) (Some (Exception PyExc_MemoryError None))
                (calls s ++ [escape_call from pg]))
    | Some (to, len) =>
        Some (Ref (length (heap s)),
              State (<[self := binary (BinaryObject (wrapped b)
                                         (Ref (length (heap s))) (conn b))]>
                       (heap s ++ [PyStringObject (literal to len e)]))
                (curexc s) (calls s ++ [escape_call from pg]))
    end.
Proof.
  intros Hb Hw Hc.
  destruct (wraps_bytes_checks _ _ _ Hw) as [(t & Ht & Hst) Hread].
  destruct (bound_to_reads _ _ _ _ Hc) as [Hpg _].
  unfold binary_quote, PyString_Check, PyBuffer_Check.
  unfold bind at 1. rewrite (get_binary_at _ _ _ Hb).
  unfold bind at 1. unfold bind at 1. rewrite Ht. unfold ret at 1.
  unfold bind at 1. unfold bind at 1. rewrite Ht. unfold ret at 1.
  replace (_ || _) with true by (destruct Hst; subst t; reflexivity).
  unfold bind at 1. rewrite Hread.
  unfold bind at 1. rewrite Hpg.
  unfold bind at 1. rewrite binary_escape_call.
  destruct (call_result (escape_call from pg)) as [[to len]|]; [|reflexivity].
  set (s1 := State (heap s) (curexc s) (calls s ++ [escape_call from pg])).
  assert (Hc1 : bound_to s1 (conn b) pg e).
  { destruct Hc; constructor; assumption. }
  destruct (bound_to_reads _ _ _ _ Hc1) as [_ He].
  assert (Hlt := lookup_adapter_lt _ _ _ Hb).
  assert (Hset : forall o c,
    bind (set_buffer self (Ref (length (heap s))))
      (fun _ => let* b' := get_binary self in ret (buffer b'))
      (State (heap s ++ [o]) (curexc s) c) =
    Some (Ref (length (heap s)),
          State (<[self := binary (BinaryObject (wrapped b)
                                     (Ref (length (heap s))) (conn b))]>
                   (heap s ++ [o])) (curexc s) c)).
  { intros o c. unfold bind at 1.
    erewrite set_buffer_at by (simpl; apply lookup_alloc_old, Hb).
    unfold bind at 1.
    rewrite (get_binary_at _ _ (BinaryObject (wrapped b)
                                  (Ref (length (heap s))) (conn b)));
      [reflexivity|].
    simpl. apply list_lookup_insert_eq. rewrite length_app. simpl. lia. }
  unfold literal, PyString_FromFormat, PyString_FromString.
  destruct (0 <? len)%N.
  - specialize (Hset (PyStringObject
        (format_s (if e then "E'%s'::bytea" else "'%s'::bytea") to))
        (calls s ++ [escape_call from pg])).
    unfold bind in Hset |- *. rewrite He. unfold alloc, ret.
    subst s1. cbn [heap curexc calls]. exact Hset.
  - specialize (Hset (PyStringObject "''::bytea")
        (calls s ++ [escape_call from pg])).
    unfold bind in Hset |- *. unfold alloc, ret.
    subst s1. cbn [heap curexc calls]. exact Hset.
Qed.

(** binary_quote on an adapter that wraps something else. *)
Lemma binary_quote_not_bytes s self b t :
  heap s !! self = Some (binary b) ->
  Py_TYPE (wrapped b) s = Some (t, s) ->
  t <> PyString_Type -> t <> PyBuffer_Type ->
  binary_quote self s =
    Some (NULL,
          State (heap s)
            (Some (Exception PyExc_TypeError
                     (Some "can't escape non-string object")))
            (calls s)).
Proof.
  intros Hb Ht Hs Hf.
  unfold binary_quote, PyString_Check, PyBuffer_Check, bind.
  rewrite (get_binary_at _ _ _ Hb), Ht. unfold ret. rewrite Ht.
  destruct t; try reflexivity; congruence.
Qed.

Lemma binary_quote_unreadable s self b a e :
  heap s !! self = Some (binary b) ->
  wrapped b = Ref a ->
  heap s !! a = Some (PyBufferObject (Unreadable e)) ->
  binary_quote self s =
    Some (NULL, State (heap s) (Some e) (calls s)).
Proof.
  intros Hb Ew Ha.
  assert (Ht : Py_TYPE (wrapped b) s = Some (PyBuffer_Type, s)).
  { rewrite Ew. unfold Py_TYPE. rewrite Ha. reflexivity. }
  unfold binary_quote.
  rewrite (bind_eq _ _ _ _ _ (get_binary_at _ _ _ Hb)).
  rewrite (bind_eq _ _ _ _ _ (PyString_Check_type _ _ _ Ht)).
  rewrite (bind_eq _ _ _ _ _ (PyBuffer_Check_type _ _ _ Ht)).
  cbv beta iota delta [orb].
  erewrite bind_eq;
    [|rewrite Ew; unfold PyObject_AsReadBuffer; rewrite Ha; reflexivity].
  reflexivity.
Qed.

(** The two kinds of runs of binary_quote. *)
Lemma binary_quote_inv s self r s' :
  binary_quote self s = Some (r, s') ->
  exists b, heap s !! self = Some (binary b) /\
    ((r = NULL /\ quote_failed s s') \/
     (r = Ref (length (heap s)) /\ quote_built s self b s' /\
      exists t, Py_TYPE (wrapped b) s = Some (t, s) /\
                (t = PyString_Type \/ t = PyBuffer_Type))).
Proof.
  intros Hq.
  destruct (heap s !! self) as [o|] eqn:Hb;
    [destruct o as [| | | |b]|];
    try (unfold binary_quote, bind, get_binary in Hq; rewrite Hb in Hq;
         discriminate).
  exists b. split; [reflexivity|].
  assert (Hfail : forall e0 c0,
    (c0 = calls s \/ exists c, c0 = calls s ++ [c] /\ call_result c = None) ->
    Some (NULL, State (heap s) (Some e0) c0) = Some (r, s') ->
    (r = NULL /\ quote_failed s s') \/
    (r = Ref (length (heap s)) /\ quote_built s self b s' /\
      exists t, Py_TYPE (wrapped b) s = Some (t, s) /\
                (t = PyString_Type \/ t = PyBuffer_Type))).
  { intros e0 c0 Hc0 [= <- <-]. left. split; [reflexivity|].
    split; [reflexivity|]. split; [discriminate|exact Hc0]. }
  assert (Hbytes : forall from, wraps_bytes s (wrapped b) from ->
    (r = NULL /\ quote_failed s s') \/
    (r = Ref (length (heap s)) /\ quote_built s self b s' /\
      exists t, Py_TYPE (wrapped b) s = Some (t, s) /\
                (t = PyString_Type \/ t = PyBuffer_Type))).
  { intros from Hw.
    assert (Hc : (exists pg e, bound_to s (conn b) pg e) \/
                 binary_quote self s = None).
    { destruct (conn b) as [| | |c] eqn:Ec.
      - left. eexists _, _. constructor.
      - right. destruct (wraps_bytes_checks _ _ _ Hw) as [(t & Ht & Hst) Hrd].
        unfold binary_quote, PyString_Check, PyBuffer_Check, bind.
        rewrite (get_binary_at _ _ _ Hb), Ht. unfold ret. rewrite Ht.
        replace (_ || _) with true by (destruct Hst; subst t; reflexivity).
        rewrite Hrd, Ec. reflexivity.
      - right. destruct (wraps_bytes_checks _ _ _ Hw) as [(t & Ht & Hst) Hrd].
        unfold binary_quote, PyString_Check, PyBuffer_Check, bind.
        rewrite (get_binary_at _ _ _ Hb), Ht. unfold ret. rewrite Ht.
        replace (_ || _) with true by (destruct Hst; subst t; reflexivity).
        rewrite Hrd, Ec. reflexivity.
      - destruct (heap s !! c) as [o|] eqn:Hco;
          [destruct o as [| | |co|]|];
          try (right;
               destruct (wraps_bytes_checks _ _ _ Hw)
                 as [(t & Ht & Hst) Hrd];
               unfold binary_quote, PyString_Check, PyBuffer_Check, bind;
               rewrite (get_binary_at _ _ _ Hb), Ht; unfold ret; rewrite Ht;
               replace (_ || _) with true
                 by (destruct Hst; subst t; reflexivity);
               rewrite Hrd, Ec; unfold conn_pgconn, as_connection, bind;
               rewrite Hco; reflexivity).
        left. eexists _, _. constructor. exact Hco. }
    destruct Hc as [(pg & e & Hc)|Hnone]; [|congruence].
    rewrite (binary_quote_bytes _ _ _ _ _ _ Hb Hw Hc) in Hq.
    destruct (call_result (escape_call from pg)) as [[to len]|] eqn:Hres.
    - injection Hq as <- <-. right. split; [reflexivity|]. split.
      + exists from, pg, e, to, len. simpl. auto 10.
      + apply (wraps_bytes_checks _ _ _ Hw).
    - eapply Hfail; [|exact Hq]. right. eauto. }
  destruct (wrapped b) as [| | |a] eqn:Ew.
  - unfold binary_quote, PyString_Check, PyBuffer_Check, bind in Hq.
    rewrite (get_binary_at _ _ _ Hb), Ew in Hq. discriminate.
  - rewrite (binary_quote_not_bytes _ _ _ PyNone_Type Hb) in Hq;
      try (rewrite Ew; reflexivity); try discriminate.
    eapply Hfail; [|exact Hq]. left. reflexivity.
  - rewrite (binary_quote_not_bytes _ _ _ PyType_Type Hb) in Hq;
      try (rewrite Ew; reflexivity); try discriminate.
    eapply Hfail; [|exact Hq]. left. reflexivity.
  - destruct (heap s !! a) as [o|] eqn:Ha.
    2:{ unfold binary_quote, PyString_Check, PyBuffer_Check, bind in Hq.
        rewrite (get_binary_at _ _ _ Hb), Ew in Hq.
        unfold Py_TYPE in Hq. rewrite Ha in Hq. discriminate. }
    destruct o as [from|[from|e0]|n|co|b0].
    + apply (Hbytes from). constructor. exact Ha.
    + apply (Hbytes from). apply wraps_buffer. exact Ha.
    + rewrite (binary_quote_unreadable _ _ _ _ _ Hb Ew Ha) in Hq.
      eapply Hfail; [|exact Hq]. left. reflexivity.
    + rewrite (binary_quote_not_bytes _ _ _ PyInt_Type Hb) in Hq;
        try (rewrite Ew; unfold Py_TYPE; rewrite Ha; reflexivity);
        try discriminate.
      eapply Hfail; [|exact Hq]. left. reflexivity.
    + rewrite (binary_quote_not_bytes _ _ _ connectionType Hb) in Hq;
        try (rewrite Ew; unfold Py_TYPE; rewrite Ha; reflexivity);
        try discriminate.
      eapply Hfail; [|exact Hq]. left. reflexivity.
    + rewrite (binary_quote_not_bytes _ _ _ binaryType Hb) in Hq;
        try (rewrite Ew; unfold Py_TYPE; rewrite Ha; reflexivity);
        try discriminate.
      eapply Hfail; [|exact Hq]. left. reflexivity.
Qed.

(** *** binary_str, binary_prepare, binary_conform, the members *)

Lemma binary_str_cached s self b :
  heap s !! self = Some (binary b) ->
  buffer b <> NULL ->
  binary_str self s = Some (buffer b, s).
Proof.
  intros Hb Hne. unfold binary_str.
  rewrite (bind_eq _ _ _ _ _ (get_binary_at _ _ _ Hb)).
  destruct (buffer b) eqn:E; try congruence;
    (erewrite bind_eq by reflexivity);
    rewrite (bind_eq _ _ _ _ _ (get_binary_at _ _ _ Hb));
    unfold ret; rewrite E; reflexivity.
Qed.

Lemma binary_str_quote s self b :
  heap s !! self = Some (binary b) ->
  buffer b = NULL ->
  binary_str self s =
    match binary_quote self s with
    | Some (_, s') =>
        match heap s' !! self with
        | Some (binary b') => Some (buffer b', s')
        | _ => None
        end
    | None => None
    end.
Proof.
  intros Hb E. unfold binary_str.
  rewrite (bind_eq _ _ _ _ _ (get_binary_at _ _ _ Hb)). rewrite E.
  unfold bind, ret, get_binary.
  destruct (binary_quote self s) as [[r s']|]; [|reflexivity].
  destruct (heap s' !! self) as [[]|]; reflexivity.
Qed.

Lemma binary_str_inv s self r s' :
  binary_str self s = Some (r, s') ->
  exists b, heap s !! self = Some (binary b) /\
    ((buffer b <> NULL /\ r = buffer b /\ s' = s) \/
     (buffer b = NULL /\ r = NULL /\ quote_failed s s') \/
     (buffer b = NULL /\ r = Ref (length (heap s)) /\
      quote_built s self b s' /\
      exists t, Py_TYPE (wrapped b) s = Some (t, s) /\
                (t = PyString_Type \/ t = PyBuffer_Type))).
Proof.
  intros Hs.
  destruct (heap s !! self) as [o|] eqn:Hb;
    [destruct o as [| | | |b]|];
    try (unfold binary_str, bind, get_binary in Hs; rewrite Hb in Hs;
         discriminate).
  exists b. split; [reflexivity|].
  destruct (pointer_eqb (buffer b) NULL) eqn:E.
  - assert (Eb : buffer b = NULL) by (destruct (buffer b); try discriminate;
                                      reflexivity).
    right. rewrite (binary_str_quote _ _ _ Hb Eb) in Hs.
    destruct (binary_quote self s) as [[r0 s0]|] eqn:Hq; [|discriminate].
    destruct (binary_quote_inv _ _ _ _ Hq) as (b0 & Hb0 & Hcase).
    assert (b0 = b) by congruence. subst b0.
    destruct Hcase as [[-> Hf]|(-> & Hbuilt & Ht)].
    + left. destruct Hf as (Hh & Hf). rewrite Hh, Hb in Hs.
      injection Hs as <- <-. rewrite Eb. repeat split; tauto.
    + right.
      destruct Hbuilt as (from & pg & e & to & len & Hw & Hc & Hr & Hh & Hrest).
      assert (Hlt := lookup_adapter_lt _ _ _ Hb).
      rewrite Hh, list_lookup_insert_eq in Hs
        by (rewrite length_app; simpl; lia).
      injection Hs as <- <-. simpl. repeat split; try assumption.
      exists from, pg, e, to, len. auto 10.
  - left. assert (Hne : buffer b <> NULL)
      by (intros Eb; rewrite Eb in E; discriminate).
    rewrite (binary_str_cached _ _ _ Hb Hne) in Hs.
    injection Hs as <- <-. auto.
Qed.

Lemma binary_prepare_one s self b c :
  heap s !! self = Some (binary b) ->
  c <> NULL ->
  binary_prepare self [c] s =
    Some (Py_None,
          State (<[self := binary (BinaryObject (wrapped b) (buffer b) c)]>
                   (heap s)) (curexc s) (calls s)).
Proof.
  intros Hb Hc. unfold binary_prepare, PyArg_ParseTuple_O.
  erewrite bind_eq by reflexivity.
  destruct c; try congruence;
    (erewrite bind_eq by (apply set_conn_at, Hb)); reflexivity.
Qed.

(** Were NULL to reach the test [if (conn)], the conn field would be left
    as it was. *)
Lemma binary_prepare_NULL s self :
  binary_prepare self [NULL] s = Some (Py_None, s).
Proof. reflexivity. Qed.

Lemma binary_conform_one s self proto :
  binary_conform self [proto] s =
    Some (if pointer_eqb proto isqlquoteType then Ref self else Py_None, s).
Proof. reflexivity. Qed.

Lemma find_member_READONLY name m flags :
  find_member binaryObject_members name = Some (m, flags) ->
  flags = READONLY.
Proof.
  unfold binaryObject_members, find_member.
  destruct (String.eqb "adapted" name); [intros [= <- <-]; reflexivity|].
  destruct (String.eqb "buffer" name); [intros [= <- <-]; reflexivity|].
  discriminate.
Qed.

Lemma binary_setattr_refused s self name v :
  exists e, binary_setattr self name v s =
              Some ((-1)%Z, State (heap s) (Some e) (calls s)).
Proof.
  unfold binary_setattr.
  destruct (find_member binaryObject_members name) as [[m flags]|] eqn:E.
  - rewrite (find_member_READONLY _ _ _ E). simpl. eexists. reflexivity.
  - eexists. reflexivity.
Qed.

(** *** The lifetime of an adapter *)

Lemma Py_TYPE_type_at s p t :
  Py_TYPE p s = Some (t, s) <-> type_at (heap s) p = Some t.
Proof.
  unfold Py_TYPE, type_at. destruct p as [| | |a]; simpl.
  - split; discriminate.
  - split; congruence.
  - split; congruence.
  - destruct (heap s !! a); simpl; split; congruence.
Qed.

Lemma grows_refl h : grows h h.
Proof. intros a o Ha. exists o. auto. Qed.

Lemma grows_alloc h o : grows h (h ++ [o]).
Proof.
  intros a x Ha. exists x. split; [apply lookup_alloc_old, Ha|auto].
Qed.

Lemma grows_insert h a o o0 :
  h !! a = Some o0 -> ob_type o = ob_type o0 ->
  (forall v, o0 <> PyStringObject v) ->
  grows h (<[a := o]> h).
Proof.
  intros Ha Ht Hns i x Hi. destruct (decide (a = i)) as [->|Hne].
  - exists o. rewrite list_lookup_insert_eq by eauto using lookup_lt_Some.
    assert (x = o0) by congruence. subst x.
    split; [reflexivity|]. split; [exact Ht|].
    intros v ->. destruct (Hns v). reflexivity.
  - exists x. rewrite list_lookup_insert_ne by exact Hne. auto.
Qed.

Lemma grows_trans h1 h2 h3 : grows h1 h2 -> grows h2 h3 -> grows h1 h3.
Proof.
  intros H12 H23 a o Ha.
  destruct (H12 a o Ha) as (o2 & Ha2 & Ht2 & Hs2).
  destruct (H23 a o2 Ha2) as (o3 & Ha3 & Ht3 & Hs3).
  exists o3. split; [exact Ha3|]. split; [congruence|].
  intros v ->. rewrite (Hs3 v); rewrite (Hs2 v); reflexivity.
Qed.

Lemma type_at_grows h h' p t :
  grows h h' -> type_at h p = Some t -> type_at h' p = Some t.
Proof.
  intros Hg. destruct p as [| | |a]; simpl; try congruence.
  destruct (h !! a) as [o|] eqn:Ha; [|discriminate].
  destruct (Hg a o Ha) as (o' & -> & Ht & _). simpl. congruence.
Qed.

Lemma cached_grows h h' log log' a :
  grows h h' -> (forall c, c ∈ log -> c ∈ log') ->
  cached h log a -> cached h' log' a.
Proof.
  intros Hg Hl (c & to & len & e & Ha & Hc & Hr).
  destruct (Hg a _ Ha) as (o' & Ha' & _ & Hs).
  exists c, to, len, e. rewrite Ha', (Hs _ eq_refl). auto.
Qed.

(** An operation that leaves the adapter object alone keeps the invariant. *)
Lemma adapter_invariant_frame self wr s s' :
  adapter_invariant self wr s ->
  grows (heap s) (heap s') ->
  heap s' !! self = heap s !! self ->
  (forall c, c ∈ calls s -> c ∈ calls s') ->
  adapter_invariant self wr s'.
Proof.
  intros (b & Hb & Hw & Hcache) Hg Hself Hl.
  exists b. rewrite Hself. split; [exact Hb|]. split; [exact Hw|].
  destruct Hcache as [E|(a & E & Hc & t & Ht & Hty)]; [left; exact E|].
  right. exists a. split; [exact E|].
  split; [eapply cached_grows; eassumption|].
  exists t. split; [eapply type_at_grows; eassumption|exact Hty].
Qed.

Lemma psyco_Binary_one s0 (wr : pointer) :
  psyco_Binary [wr] s0 =
    Some (Ref (length (heap s0)),
          State (heap s0 ++ [binary (BinaryObject wr NULL NULL)])
            (curexc s0) (calls s0)).
Proof.
  unfold psyco_Binary, PyArg_ParseTuple_O.
  erewrite bind_eq by reflexivity.
  unfold binaryType_call, binary_new.
  erewrite bind_eq by reflexivity.
  unfold binary_init, PyArg_ParseTuple_O.
  unfold bind at 1. erewrite bind_eq by reflexivity.
  unfold binary_setup, bind, set_binary, ret. cbn [heap curexc calls].
  rewrite lookup_alloc_new.
  rewrite insert_app_r_alt by lia. rewrite Nat.sub_diag. reflexivity.
Qed.

Lemma elem_of_log_grows (log : list libpq_call) c c' :
  c ∈ log -> c ∈ log ++ [c'].
Proof. intros Hc. apply elem_of_app. left. exact Hc. Qed.

(** What an operation does to the adapter it is applied to. *)
Lemma run_inv self o s s' b :
  heap s !! self = Some (binary b) ->
  run self o s = Some (tt, s') ->
  (heap s' = heap s /\
   (forall c, c ∈ calls s -> c ∈ calls s')) \/
  (exists c, c <> NULL /\ o = prepare [c] /\
     heap s' = <[self := binary (BinaryObject (wrapped b) (buffer b) c)]>
                 (heap s) /\
     calls s' = calls s) \/
  (buffer b = NULL /\ quote_built s self b s' /\
   exists t, type_at (heap s) (wrapped b) = Some t /\ is_bytes_type t).
Proof.
  intros Hb Hrun.
  assert (Hstr : forall r, binary_str self s = Some (r, s') ->
    (heap s' = heap s /\ (forall c, c ∈ calls s -> c ∈ calls s')) \/
    (exists c, c <> NULL /\ o = prepare [c] /\
       heap s' = <[self := binary (BinaryObject (wrapped b) (buffer b) c)]>
                   (heap s) /\
       calls s' = calls s) \/
    (buffer b = NULL /\ quote_built s self b s' /\
     exists t, type_at (heap s) (wrapped b) = Some t /\ is_bytes_type t)).
  { intros r Hs. destruct (binary_str_inv _ _ _ _ Hs) as (b0 & Hb0 & Hcase).
    assert (b0 = b) by congruence. subst b0.
    destruct Hcase as [(_ & _ & ->)|[(_ & _ & Hf)|(E & _ & Hq & t & Ht & Hty)]].
    - left. auto.
    - left. destruct Hf as (Hh & _ & [Hc|(c & Hc & _)]).
      + split; [exact Hh|]. rewrite Hc. auto.
      + split; [exact Hh|]. rewrite Hc. intros c0. apply elem_of_log_grows.
    - right. right. split; [exact E|]. split; [exact Hq|].
      exists t. split; [apply Py_TYPE_type_at, Ht|exact Hty]. }
  destruct o as [| |args|args|name v]; unfold run, bind in Hrun.
  - unfold binary_getquoted in Hrun.
    destruct (binary_str self s) as [[r s1]|] eqn:Hs; [|discriminate].
    injection Hrun as <-. eapply Hstr. reflexivity.
  - destruct (binary_str self s) as [[r s1]|] eqn:Hs; [|discriminate].
    injection Hrun as <-. eapply Hstr. reflexivity.
  - destruct args as [|c [|c' args]].
    + injection Hrun as <-. left. auto.
    + destruct (pointer_eqb c NULL) eqn:E.
      * destruct c; try discriminate. injection Hrun as <-. left. auto.
      * assert (Hc : c <> NULL) by (intros ->; discriminate).
        rewrite (binary_prepare_one _ _ _ _ Hb Hc) in Hrun.
        injection Hrun as <-. right. left. exists c. auto.
    + injection Hrun as <-. left. auto.
  - destruct args as [|c [|c' args]]; injection Hrun as <-; left; auto.
  - destruct (binary_setattr_refused s self name v) as (e & He).
    rewrite He in Hrun. injection Hrun as <-. left. auto.
Qed.

Lemma quote_built_invariant self wr s s' b t :
  heap s !! self = Some (binary b) ->
  wrapped b = wr ->
  quote_built s self b s' ->
  type_at (heap s) wr = Some t -> is_bytes_type t ->
  adapter_invariant self wr s'.
Proof.
  intros Hb Hw (from & pg & e & to & len & _ & _ & Hr & Hh & _ & Hc) Ht Hty.
  assert (Hlt := lookup_adapter_lt _ _ _ Hb).
  assert (Hg : grows (heap s) (heap s')).
  { rewrite Hh. eapply grows_trans; [apply grows_alloc|].
    eapply grows_insert;
      [apply lookup_alloc_old, Hb|reflexivity|discriminate]. }
  eexists. rewrite Hh.
  rewrite list_lookup_insert_eq by (rewrite length_app; simpl; lia).
  split; [reflexivity|]. split; [exact Hw|]. right.
  exists (length (heap s)). split; [reflexivity|]. split.
  - exists (escape_call from pg), to, len, e.
    rewrite list_lookup_insert_ne by lia. rewrite lookup_alloc_new.
    split; [reflexivity|]. split; [|exact Hr].
    rewrite Hc. apply elem_of_app. right. apply list_elem_of_singleton.
    reflexivity.
  - exists t. split; [|exact Hty]. rewrite <- Hh.
    eapply type_at_grows; eassumption.
Qed.

(** The invariant of the lifetime: the wrapped field is the pointer given
    to the constructor, and the buffer field is NULL or points to a literal
    built from the answer to one call to libpq. *)
Lemma lifetime_invariant allowed self (wr : pointer) s :
  lifetime allowed self wr s -> adapter_invariant self wr s.
Proof.
  induction 1 as [s0 s Hnew|s o s' Hreach IH _ Hrun|s o Hreach IH
                 |s Hreach IH|s a o o' Hreach IH Hne Ha Hty Hns].
  - rewrite psyco_Binary_one in Hnew. injection Hnew as <- <-.
    eexists. simpl. rewrite lookup_alloc_new.
    split; [reflexivity|]. split; [reflexivity|]. left. reflexivity.
  - destruct IH as (b & Hb & Hw & Hcache).
    destruct (run_inv _ _ _ _ _ Hb Hrun)
      as [(Hh & Hl)|[(c & Hc & _ & Hh & Hl)|(E & Hq & t & Ht & Hty)]].
    + eapply adapter_invariant_frame;
        [exists b; eauto|rewrite Hh; apply grows_refl|rewrite Hh; reflexivity
        |exact Hl].
    + assert (Hg : grows (heap s) (heap s')).
      { rewrite Hh. eapply grows_insert;
          [exact Hb|reflexivity|discriminate]. }
      eexists. rewrite Hh.
      rewrite list_lookup_insert_eq by eauto using lookup_lt_Some.
      split; [reflexivity|]. split; [exact Hw|]. simpl.
      destruct Hcache as [E|(a & E & Hca & t & Ht & Hty)]; [left; exact E|].
      right. exists a. split; [exact E|]. rewrite <- Hh, Hl. split.
      * eapply cached_grows; [exact Hg| |exact Hca]. auto.
      * exists t. split; [eapply type_at_grows; eassumption|exact Hty].
    + rewrite Hw in Ht. eapply quote_built_invariant; eassumption.
  - eapply adapter_invariant_frame; [exact IH|apply grows_alloc| |auto].
    destruct IH as (b & Hb & _). simpl. rewrite Hb.
    apply lookup_alloc_old, Hb.
  - eapply adapter_invariant_frame;
      [exact IH|apply grows_refl|reflexivity|auto].
  - eapply adapter_invariant_frame; [exact IH| | |auto].
    + simpl. eapply grows_insert; eassumption.
    + simpl. apply list_lookup_insert_ne. exact Hne.
Qed.

(** An operation changes no object but the adapter it is applied to. *)
Lemma run_frame self o s s' b a (x : object) :
  heap s !! self = Some (binary b) ->
  run self o s = Some (tt, s') ->
  a <> self ->
  heap s !! a = Some x ->
  heap s' !! a = Some x.
Proof.
  intros Hb Hrun Hne Ha.
  destruct (run_inv _ _ _ _ _ Hb Hrun)
    as [(Hh & _)|[(c & _ & _ & Hh & _)|(_ & Hq & _)]].
  - rewrite Hh. exact Ha.
  - rewrite Hh, list_lookup_insert_ne by congruence. exact Ha.
  - destruct Hq as (from & pg & e & to & len & _ & _ & _ & Hh & _).
    rewrite Hh, list_lookup_insert_ne by congruence.
    apply lookup_alloc_old, Ha.
Qed.

(** *** The first quoting *)

(** binary_getquoted on an adapter whose buffer field is NULL and that
    wraps the bytes [from]. *)
Lemma binary_getquoted_first s self b from pg e :
  heap s !! self = Some (binary b) ->
  buffer b = NULL ->
  wraps_bytes s (wrapped b) from ->
  bound_to s (conn b) pg e ->
  binary_getquoted self s =
    match call_result (escape_call from pg) with
    | None =>
        Some (NULL,
              State (heap s) (Some (Exception PyExc_MemoryError None))
                (calls s ++ [escape_call from pg]))
    | Some (to, len) =>
        Some (Ref (length (heap s)),
              State (<[self := binary (BinaryObject (wrapped b)
                                         (Ref (length (heap s))) (conn b))]>
                       (heap s ++ [PyStringObject (literal to len e)]))
                (curexc s) (calls s ++ [escape_call from pg]))
    end.
Proof.
  intros Hb E Hw Hc. unfold binary_getquoted.
  rewrite (binary_str_quote _ _ _ Hb E).
  rewrite (binary_quote_bytes _ _ _ _ _ _ Hb Hw Hc).
  assert (Hlt := lookup_adapter_lt _ _ _ Hb).
  destruct (call_result (escape_call from pg)) as [[to len]|].
  - cbn [heap]. rewrite list_lookup_insert_eq
      by (rewrite length_app; simpl; lia).
    reflexivity.
  - cbn [heap]. rewrite Hb, E. reflexivity.
Qed.

(** When libpq reports a length that is not zero, the flag of the
    connection decides of the literal. *)
Lemma literal_nonzero to len e :
  (0 < len)%N ->
  literal to len e =
    if e then ("E'" ++ to ++ "'::bytea")%string
    else ("'" ++ to ++ "'::bytea")%string.
Proof.
  intros Hlen. unfold literal.
  destruct (N.ltb_spec 0 len) as [_|Hle]; [|lia].
  destruct e; reflexivity.
Qed.

Lemma reachable_invariant self (wr : pointer) s :
  reachable self wr s -> adapter_invariant self wr s.
Proof. apply lifetime_invariant. Qed.

Lemma reachable_run self (wr : pointer) s o s' :
  reachable self wr s ->
  run self o s = Some (tt, s') ->
  reachable self wr s'.
Proof.
  intros Hreach Hrun.
  eapply lifetime_run; [exact Hreach|exact I|exact Hrun].
Qed.

Lemma reachable_Binary self (wr : pointer) s0 s :
  psyco_Binary [wr] s0 = Some (Ref self, s) -> reachable self wr s.
Proof. apply lifetime_Binary. Qed.

Lemma never_bound_Binary self (wr : pointer) s0 s :
  psyco_Binary [wr] s0 = Some (Ref self, s) -> never_bound self wr s.
Proof. apply lifetime_Binary. Qed.

Lemma never_bound_reachable self (wr : pointer) s :
  never_bound self wr s -> reachable self wr s.
Proof.
  induction 1; [eapply lifetime_Binary|eapply lifetime_run|
                eapply lifetime_alloc|eapply lifetime_clear|
                eapply lifetime_update]; eauto.
Qed.

Lemma cached_unbound_grows h h' a :
  grows h h' -> cached_unbound h a -> cached_unbound h' a.
Proof.
  intros Hg (from & to & len & Ha & Hr).
  destruct (Hg a _ Ha) as (o' & Ha' & _ & Hs).
  exists from, to, len. rewrite Ha', (Hs _ eq_refl). auto.
Qed.

Lemma unbound_invariant_frame self s s' :
  unbound_invariant self s ->
  grows (heap s) (heap s') ->
  heap s' !! self = heap s !! self ->
  unbound_invariant self s'.
Proof.
  intros (b & Hb & Ec & Hcache) Hg Hself.
  exists b. rewrite Hself. split; [exact Hb|]. split; [exact Ec|].
  destruct Hcache as [E|(a & E & Hc)]; [left; exact E|].
  right. exists a. split; [exact E|]. eapply cached_unbound_grows; eassumption.
Qed.

(** The invariant of the adapters that were never bound: the conn field is
    NULL, and the literal, when there is one, was built without a
    connection. *)
Lemma never_bound_invariant self (wr : pointer) s :
  never_bound self wr s -> unbound_invariant self s.
Proof.
  induction 1 as [s0 s Hnew|s o s' Hreach IH Hallowed Hrun|s o Hreach IH
                 |s Hreach IH|s a o o' Hreach IH Hne Ha Hty Hns].
  - rewrite psyco_Binary_one in Hnew. injection Hnew as <- <-.
    eexists. simpl. rewrite lookup_alloc_new.
    split; [reflexivity|]. split; [reflexivity|]. left. reflexivity.
  - destruct IH as (b & Hb & Ec & Hcache).
    destruct (run_inv _ _ _ _ _ Hb Hrun)
      as [(Hh & _)|[(c & _ & -> & _)|(E & Hq & _)]].
    + eapply unbound_invariant_frame;
        [exists b; eauto|rewrite Hh; apply grows_refl|rewrite Hh; reflexivity].
    + destruct Hallowed. exact I.
    + destruct Hq as (from & pg & e & to & len & _ & Hc & Hr & Hh & _).
      rewrite Ec in Hc. inversion Hc; subst pg e.
      rewrite escape_call_unbound in Hr. cbn [call_result] in Hr.
      assert (Hlt := lookup_adapter_lt _ _ _ Hb).
      eexists. rewrite Hh.
      rewrite list_lookup_insert_eq by (rewrite length_app; simpl; lia).
      split; [reflexivity|]. split; [exact Ec|]. right.
      exists (length (heap s)). split; [reflexivity|].
      exists from, to, len.
      rewrite list_lookup_insert_ne by lia. rewrite lookup_alloc_new. auto.
  - eapply unbound_invariant_frame; [exact IH|apply grows_alloc|].
    destruct IH as (b & Hb & _). simpl. rewrite Hb.
    apply lookup_alloc_old, Hb.
  - eapply unbound_invariant_frame;
      [exact IH|apply grows_refl|reflexivity].
  - eapply unbound_invariant_frame; [exact IH| |].
    + simpl. eapply grows_insert; eassumption.
    + simpl. apply list_lookup_insert_ne. exact Hne.
Qed.

(** The branch of binary_quote for the length zero builds the literal of
    the empty value, whatever the connection. *)
Lemma getquoted_zero_length s self b from pg e to :
  heap s !! self = Some (binary b) ->
  buffer b = NULL ->
  wraps_bytes s (wrapped b) from ->
  bound_to s (conn b) pg e ->
  call_result (escape_call from pg) = Some (to, 0%N) ->
  exists s',
    binary_getquoted self s = Some (Ref (length (heap s)), s') /\
    heap s' !! length (heap s) = Some (PyStringObject "''::bytea").
Proof.
  intros Hb E Hw Hc Hres.
  rewrite (binary_getquoted_first _ _ _ _ _ _ Hb E Hw Hc), Hres.
  eexists. split; [reflexivity|]. cbn [heap].
  assert (Hlt := lookup_adapter_lt _ _ _ Hb).
  rewrite list_lookup_insert_ne by lia. rewrite lookup_alloc_new.
  reflexivity.
Qed.

(** Once prepare has stored an object that is not a connection, such as
    Py_None, the first quoting reads a connection field of that object:
    binary_quote has no defined result. *)
Lemma binary_quote_conn_not_connection s self b from :
  heap s !! self = Some (binary b) ->
  wraps_bytes s (wrapped b) from ->
  conn b <> NULL ->
  (forall a co, conn b = Ref a -> heap s !! a <> Some (connection co)) ->
  binary_quote self s = None.
Proof.
  intros Hb Hw Hne Hnc.
  destruct (wraps_bytes_checks _ _ _ Hw) as [(t & Ht & Hst) Hrd].
  unfold binary_quote.
  rewrite (bind_eq _ _ _ _ _ (get_binary_at _ _ _ Hb)).
  rewrite (bind_eq _ _ _ _ _ (PyString_Check_type _ _ _ Ht)).
  rewrite (bind_eq _ _ _ _ _ (PyBuffer_Check_type _ _ _ Ht)).
  replace (_ || _) with true by (destruct Hst; subst t; reflexivity).
  rewrite (bind_eq _ _ _ _ _ Hrd).
  unfold bind at 1.
  destruct (conn b) as [| | |a] eqn:Ec; try congruence; try reflexivity.
  unfold conn_pgconn, as_connection, bind.
  destruct (heap s !! a) as [[| | |co|]|] eqn:Ha; try reflexivity.
  destruct (Hnc a co eq_refl). exact Ha.
Qed.

(** *** The properties of the specification *)

(** C1, on the code.  The length libpq reports counts the terminating zero
    byte, so it is not zero for the empty value either: on an adapter that
    wraps the empty string and is bound to a connection whose equote flag is
    set, the test [len > 0] holds and binary_getquoted returns E'to'::bytea
    for the escaped string [to], which is not ''::bytea. *)
Theorem getquoted_empty_equote s self b a co to len :
  counts_terminator ->
  heap s !! self = Some (binary b) ->
  buffer b = NULL ->
  wraps_bytes s (wrapped b) "" ->
  conn b = Ref a ->
  heap s !! a = Some (connection co) ->
  equote co <> 0%Z ->
  call_result (escape_call "" (pgconn co)) = Some (to, len) ->
  exists s',
    binary_getquoted self s = Some (Ref (length (heap s)), s') /\
    heap s' !! length (heap s) =
      Some (PyStringObject ("E'" ++ to ++ "'::bytea")%string) /\
    ("E'" ++ to ++ "'::bytea")%string <> "''::bytea".
Proof.
  intros Hlibpq Hb E Hw Ec Ha He Hres.
  assert (Hc : bound_to s (conn b) (pgconn co) (negb (equote co =? 0)%Z)).
  { rewrite Ec. constructor. exact Ha. }
  rewrite (binary_getquoted_first _ _ _ _ _ _ Hb E Hw Hc), Hres.
  eexists. split; [reflexivity|]. cbn [heap].
  assert (Hlt := lookup_adapter_lt _ _ _ Hb).
  rewrite list_lookup_insert_ne by lia. rewrite lookup_alloc_new.
  rewrite literal_nonzero by (rewrite (Hlibpq _ _ _ Hres); lia).
  destruct (Z.eqb_spec (equote co) 0); [contradiction|].
  split; [reflexivity|discriminate].
Qed.

(** C2, as amended.  On an adapter that holds no literal yet, wraps bytes
    and is bound to a connection, when libpq returns the escaped string [to]
    and reports a length that is not zero, binary_getquoted returns a new
    string: E'to'::bytea when the equote flag of the connection is set,
    'to'::bytea when it is not. *)
Theorem getquoted_prefix self s b from a co to len :
  heap s !! self = Some (binary b) ->
  buffer b = NULL ->
  wraps_bytes s (wrapped b) from ->
  conn b = Ref a ->
  heap s !! a = Some (connection co) ->
  call_result (escape_call from (pgconn co)) = Some (to, len) ->
  (0 < len)%N ->
  exists s',
    binary_getquoted self s = Some (Ref (length (heap s)), s') /\
    heap s' !! length (heap s) =
      Some (PyStringObject
              (if (equote co =? 0)%Z
               then ("'" ++ to ++ "'::bytea")%string
               else ("E'" ++ to ++ "'::bytea")%string)).
Proof.
  intros Hb E Hw Ec Ha Hres Hlen.
  assert (Hc : bound_to s (conn b) (pgconn co) (negb (equote co =? 0)%Z)).
  { rewrite Ec. constructor. exact Ha. }
  rewrite (binary_getquoted_first _ _ _ _ _ _ Hb E Hw Hc), Hres.
  eexists. split; [reflexivity|]. cbn [heap].
  assert (Hlt := lookup_adapter_lt _ _ _ Hb).
  rewrite list_lookup_insert_ne by lia. rewrite lookup_alloc_new.
  rewrite (literal_nonzero _ _ _ Hlen).
  destruct (equote co =? 0)%Z; reflexivity.
Qed.

(** C3.  In every state of the lifetime of an adapter built around an
    object that is neither a string nor a buffer, binary_getquoted returns
    NULL with TypeError "can't escape non-string object" as the error, and
    changes nothing else: the buffer field was NULL and stays NULL. *)
Theorem getquoted_not_bytes self (wr : pointer) s t :
  reachable self wr s ->
  Py_TYPE wr s = Some (t, s) ->
  t <> PyString_Type -> t <> PyBuffer_Type ->
  binary_getquoted self s =
    Some (NULL,
          State (heap s)
            (Some (Exception PyExc_TypeError
                     (Some "can't escape non-string object")))
            (calls s)) /\
  exists b, heap s !! self = Some (binary b) /\ buffer b = NULL.
Proof.
  intros Hreach Ht Hs Hf.
  destruct (reachable_invariant _ _ _ Hreach) as (b & Hb & Hw & Hcache).
  assert (E : buffer b = NULL).
  { destruct Hcache as [E|(a & _ & _ & t' & Ht' & Hty)]; [exact E|].
    apply Py_TYPE_type_at in Ht. rewrite Ht in Ht'. injection Ht' as <-.
    destruct Hty; contradiction. }
  split; [|exists b; split; assumption].
  unfold binary_getquoted. rewrite (binary_str_quote _ _ _ Hb E).
  rewrite <- Hw in Ht.
  rewrite (binary_quote_not_bytes _ _ _ _ Hb Ht Hs Hf).
  cbn [heap]. rewrite Hb, E. reflexivity.
Qed.

(** C4, as amended.  When a call to binary_getquoted returns a literal, the
    next call returns the same pointer and changes nothing, and the two
    calls together make at most one call to libpq. *)
Theorem getquoted_twice self s r s1 :
  binary_getquoted self s = Some (r, s1) ->
  r <> NULL ->
  binary_getquoted self s1 = Some (r, s1) /\
  length (calls s1) <= length (calls s) + 1.
Proof.
  unfold binary_getquoted. intros Hs Hr.
  destruct (binary_str_inv _ _ _ _ Hs) as (b & Hb & Hcase).
  destruct Hcase as [(Hne & -> & ->)|[(_ & -> & _)|(E & -> & Hq & _)]].
  - split; [apply binary_str_cached; assumption|lia].
  - congruence.
  - destruct Hq as (from & pg & e & to & len & _ & _ & _ & Hh & _ & Hc).
    assert (Hlt := lookup_adapter_lt _ _ _ Hb).
    split.
    + apply (binary_str_cached s1 self
               (BinaryObject (wrapped b) (Ref (length (heap s))) (conn b))).
      * rewrite Hh. apply list_lookup_insert_eq.
        rewrite length_app. simpl. lia.
      * discriminate.
    + rewrite Hc, length_app. simpl. lia.
Qed.

(** C5.  In every state of the lifetime of an adapter, the buffer field is
    NULL or points to a literal built from the answer to one call to libpq;
    and when the adapter holds no literal, wraps bytes and libpq returns
    NULL, binary_getquoted returns NULL with MemoryError as the error and
    leaves the store as it was. *)
Theorem escape_failure_leaves_no_cache self (wr : pointer) s :
  reachable self wr s ->
  (exists b, heap s !! self = Some (binary b) /\
     (buffer b = NULL \/
      exists a, buffer b = Ref a /\ cached (heap s) (calls s) a)) /\
  (forall b from pg e,
     heap s !! self = Some (binary b) ->
     buffer b = NULL ->
     wraps_bytes s (wrapped b) from ->
     bound_to s (conn b) pg e ->
     call_result (escape_call from pg) = None ->
     binary_getquoted self s =
       Some (NULL,
             State (heap s) (Some (Exception PyExc_MemoryError None))
               (calls s ++ [escape_call from pg]))).
Proof.
  intros Hreach. split.
  - destruct (reachable_invariant _ _ _ Hreach) as (b & Hb & _ & Hcache).
    exists b. split; [exact Hb|].
    destruct Hcache as [E|(a & E & Hc & _)]; [left; exact E|].
    right. exists a. auto.
  - intros b from pg e Hb E Hw Hc Hres.
    rewrite (binary_getquoted_first _ _ _ _ _ _ Hb E Hw Hc), Hres.
    reflexivity.
Qed.

(** C6.  On an adapter that holds a literal, binary_prepare with one
    argument changes the conn field and nothing else, and the next
    binary_getquoted returns the literal held before, with no call to libpq
    and no other change. *)
Theorem prepare_keeps_cache self s b c :
  heap s !! self = Some (binary b) ->
  buffer b <> NULL ->
  c <> NULL ->
  exists s',
    binary_prepare self [c] s = Some (Py_None, s') /\
    heap s' = <[self := binary (BinaryObject (wrapped b) (buffer b) c)]>
                (heap s) /\
    curexc s' = curexc s /\
    calls s' = calls s /\
    binary_getquoted self s' = Some (buffer b, s').
Proof.
  intros Hb Hne Hc. eexists.
  split; [exact (binary_prepare_one _ _ _ _ Hb Hc)|].
  repeat (split; [reflexivity|]).
  apply (binary_str_cached _ self (BinaryObject (wrapped b) (buffer b) c)).
  - simpl. apply list_lookup_insert_eq. eauto using lookup_lt_Some.
  - exact Hne.
Qed.

(** C7, on the code.  prepare(None) on an adapter that wraps bytes and
    holds no literal: the call succeeds and stores Py_None in the conn
    field; binary_getquoted then reads the pgconn field of an object that is
    not a connection, and has no defined result. *)
Theorem getquoted_after_prepare_None s self b from :
  heap s !! self = Some (binary b) ->
  buffer b = NULL ->
  wraps_bytes s (wrapped b) from ->
  exists s',
    binary_prepare self [Py_None] s = Some (Py_None, s') /\
    heap s' !! self =
      Some (binary (BinaryObject (wrapped b) (buffer b) Py_None)) /\
    binary_getquoted self s' = None.
Proof.
  intros Hb E Hw.
  assert (Hlt := lookup_adapter_lt _ _ _ Hb).
  rewrite (binary_prepare_one _ _ _ Py_None Hb) by discriminate.
  eexists. split; [reflexivity|]. cbn [heap].
  set (b' := BinaryObject (wrapped b) (buffer b) Py_None).
  assert (Hb' : <[self := binary b']> (heap s) !! self = Some (binary b'))
    by (apply list_lookup_insert_eq; exact Hlt).
  split; [exact Hb'|].
  unfold binary_getquoted.
  rewrite (binary_str_quote _ self b') by (cbn [heap]; assumption).
  rewrite (binary_quote_conn_not_connection _ self b' from);
    [reflexivity|exact Hb'| |discriminate|discriminate].
  destruct Hw as [w v Hv|w v Hv]; [apply wraps_string|apply wraps_buffer];
    cbn [heap]; (rewrite list_lookup_insert_ne by congruence); exact Hv.
Qed.

(** C8, as amended.  An adapter that was never bound and wraps bytes:
    binary_getquoted makes no call to PQescapeByteaConn (at most one call to
    libpq, to PQescapeBytea), and unless PQescapeBytea returns NULL it
    returns a string built from an answer [to] of PQescapeBytea:
    'to'::bytea or ''::bytea, without the E. *)
Theorem getquoted_never_bound self (wr : pointer) s from :
  never_bound self wr s ->
  wraps_bytes s wr from ->
  exists r s',
    binary_getquoted self s = Some (r, s') /\
    (calls s' = calls s \/ calls s' = calls s ++ [call_PQescapeBytea from]) /\
    ((r = NULL /\ PQescapeBytea from = None) \/
     exists a from' to len,
       r = Ref a /\
       PQescapeBytea from' = Some (to, len) /\
       heap s' !! a =
         Some (PyStringObject
                 (if (0 <? len)%N then ("'" ++ to ++ "'::bytea")%string
                  else "''::bytea"))).
Proof.
  intros Hnb Hw.
  destruct (reachable_invariant _ _ _ (never_bound_reachable _ _ _ Hnb))
    as (b & Hb & Ew & _).
  destruct (never_bound_invariant _ _ _ Hnb) as (b' & Hb' & Ec & Hcache).
  assert (b' = b) by congruence. subst b'.
  destruct Hcache as [E|(a & E & from' & to & len & Ha & Hr)].
  - assert (Hc : bound_to s (conn b) None false)
      by (rewrite Ec; constructor).
    rewrite <- Ew in Hw.
    rewrite (binary_getquoted_first _ _ _ _ _ _ Hb E Hw Hc).
    rewrite escape_call_unbound. cbn [call_result].
    assert (Hlt := lookup_adapter_lt _ _ _ Hb).
    destruct (PQescapeBytea from) as [[to len]|] eqn:Hr.
    + eexists _, _. split; [reflexivity|]. split; [right; reflexivity|].
      right. exists (length (heap s)), from, to, len.
      split; [reflexivity|]. split; [exact Hr|]. cbn [heap].
      rewrite list_lookup_insert_ne by lia. rewrite lookup_alloc_new.
      reflexivity.
    + eexists _, _. split; [reflexivity|]. split; [right; reflexivity|].
      left. auto.
  - exists (Ref a), s. split.
    + unfold binary_getquoted. rewrite <- E.
      apply binary_str_cached; [exact Hb|]. rewrite E. discriminate.
    + split; [left; reflexivity|]. right. exists a, from', to, len.
      split; [reflexivity|]. split; [exact Hr|]. exact Ha.
Qed.

(** C9.  binary_conform with one argument returns the adapter itself when
    the argument is isqlquoteType, and only then; for every other argument
    it returns Py_None.  It changes nothing. *)
Theorem conform_isqlquote self s (proto : pointer) :
  exists r,
    binary_conform self [proto] s = Some (r, s) /\
    (r = Ref self <-> proto = isqlquoteType) /\
    (proto <> isqlquoteType -> r = Py_None).
Proof.
  rewrite binary_conform_one. eexists. split; [reflexivity|].
  destruct proto; simpl; repeat split; congruence.
Qed.

(** C10.  In every state of the lifetime of an adapter the wrapped field is
    the pointer given to the constructor; every operation (getquoted, str,
    prepare, __conform__, the assignment of an attribute) leaves it so, and
    changes no object of the store but the adapter itself: the object the
    field points to is as it was. *)
Theorem wrapped_never_replaced self (wr : pointer) s :
  reachable self wr s ->
  (exists b, heap s !! self = Some (binary b) /\ wrapped b = wr) /\
  (forall o s',
     run self o s = Some (tt, s') ->
     (exists b', heap s' !! self = Some (binary b') /\ wrapped b' = wr) /\
     (forall a (x : object),
        a <> self -> heap s !! a = Some x -> heap s' !! a = Some x)).
Proof.
  intros Hreach.
  destruct (reachable_invariant _ _ _ Hreach) as (b & Hb & Hw & _).
  split; [exists b; auto|].
  intros o s' Hrun. split.
  - destruct (reachable_invariant self wr s') as (b' & Hb' & Hw' & _).
    + eapply reachable_run; eassumption.
    + exists b'. auto.
  - intros a x. eapply run_frame; eassumption.
Qed.

End Properties.

(** ** The properties on concrete stores *)

Section Concrete.

Import Scenario.

Local Existing Instance EscapeFormat.libpq.

(** The stores of the scenarios are those the constructor and prepare
    build. *)
Lemma adapter_after_Binary v :
  psyco_Binary [Ref 0] (store v) = Some (Ref 3, adapter v NULL NULL [] []).
Proof. reflexivity. Qed.

Lemma adapter_after_prepare v (c : pointer) :
  c <> NULL ->
  binary_prepare 3 [c] (adapter v NULL NULL [] []) =
    Some (Py_None, adapter v NULL c [] []).
Proof. intros Hc. destruct c; [congruence|reflexivity..]. Qed.

Lemma escape_format_counts_terminator : counts_terminator.
Proof.
  intros c to len Hres.
  destruct c; cbn in Hres; unfold EscapeFormat.escape_bytea in Hres;
    injection Hres as <- <-; reflexivity.
Qed.

Lemma getquoted_empty_equote_witness :
  exists s',
    binary_getquoted 3 (adapter "" NULL (Ref 1) [] []) = Some (Ref 4, s') /\
    heap s' !! 4 = Some (PyStringObject "E''::bytea") /\
    "E''::bytea" <> "''::bytea".
Proof.
  apply (getquoted_empty_equote (adapter "" NULL (Ref 1) [] []) 3
           (BinaryObject (Ref 0) NULL (Ref 1)) 1 with_equote "" 1).
  - exact escape_format_counts_terminator.
  - reflexivity.
  - reflexivity.
  - constructor. reflexivity.
  - reflexivity.
  - reflexivity.
  - discriminate.
  - reflexivity.
Defined.

(** C2, as stated, fails on an adapter that computed its literal before it
    was bound: Binary('ab'), getquoted(), prepare(conn) with equote set,
    and getquoted() returns 'ab'::bytea. *)
Lemma getquoted_stale_prefix :
  let s := adapter "ab" (Ref 4) (Ref 1) [PyStringObject "'ab'::bytea"]
             [call_PQescapeBytea "ab"] in
  (let* _ := psyco_Binary [Ref 0] in
   run_all 3 [getquoted; prepare [Ref 1]]) (store "ab") = Some (tt, s) /\
  wraps_bytes s (Ref 0) "ab" /\
  bound_to s (Ref 1) (Some 7) true /\
  binary_getquoted 3 s = Some (Ref 4, s) /\
  heap s !! 4 = Some (PyStringObject "'ab'::bytea") /\
  String.prefix "E'" "'ab'::bytea" = false.
Proof.
  repeat split.
  - constructor. reflexivity.
  - apply (bound_to_connection _ 1 with_equote). reflexivity.
Qed.

Lemma getquoted_prefix_witness :
  exists s',
    binary_getquoted 3 (adapter "ab" NULL (Ref 1) [] []) = Some (Ref 4, s') /\
    heap s' !! 4 = Some (PyStringObject "E'ab'::bytea").
Proof.
  apply (getquoted_prefix 3 (adapter "ab" NULL (Ref 1) [] [])
           (BinaryObject (Ref 0) NULL (Ref 1)) "ab" 1 with_equote "ab" 3).
  - reflexivity.
  - reflexivity.
  - constructor. reflexivity.
  - reflexivity.
  - reflexivity.
  - reflexivity.
  - reflexivity.
Defined.

Lemma getquoted_not_bytes_witness :
  binary_getquoted 1 adapter_int =
    Some (NULL,
          State (heap adapter_int)
            (Some (Exception PyExc_TypeError
                     (Some "can't escape non-string object")))
            (calls adapter_int)) /\
  exists b, heap adapter_int !! 1 = Some (binary b) /\ buffer b = NULL.
Proof.
  apply (getquoted_not_bytes 1 (Ref 0) adapter_int PyInt_Type).
  - apply (reachable_Binary 1 (Ref 0) store_int). reflexivity.
  - reflexivity.
  - discriminate.
  - discriminate.
Defined.

Lemma getquoted_twice_witness :
  let s1 := adapter "ab" (Ref 4) NULL [PyStringObject "'ab'::bytea"]
              [call_PQescapeBytea "ab"] in
  binary_getquoted 3 s1 = Some (Ref 4, s1) /\
  length (calls s1) <= length (calls (adapter "ab" NULL NULL [] [])) + 1.
Proof.
  apply (getquoted_twice 3 (adapter "ab" NULL NULL [] []) (Ref 4)).
  - reflexivity.
  - discriminate.
Defined.

Lemma prepare_keeps_cache_witness :
  let s := adapter "ab" (Ref 4) NULL [PyStringObject "'ab'::bytea"]
             [call_PQescapeBytea "ab"] in
  exists s',
    binary_prepare 3 [Ref 1] s = Some (Py_None, s') /\
    heap s' = <[3 := binary (BinaryObject (Ref 0) (Ref 4) (Ref 1))]> (heap s) /\
    curexc s' = curexc s /\
    calls s' = calls s /\
    binary_getquoted 3 s' = Some (Ref 4, s').
Proof.
  apply (prepare_keeps_cache 3
           (adapter "ab" (Ref 4) NULL [PyStringObject "'ab'::bytea"]
              [call_PQescapeBytea "ab"])
           (BinaryObject (Ref 0) (Ref 4) NULL) (Ref 1)).
  - reflexivity.
  - discriminate.
  - discriminate.
Defined.

Lemma getquoted_after_prepare_None_witness :
  exists s',
    binary_prepare 3 [Py_None] (adapter "ab" NULL NULL [] []) =
      Some (Py_None, s') /\
    heap s' !! 3 = Some (binary (BinaryObject (Ref 0) NULL Py_None)) /\
    binary_getquoted 3 s' = None.
Proof.
  apply (getquoted_after_prepare_None (adapter "ab" NULL NULL [] []) 3
           (BinaryObject (Ref 0) NULL NULL) "ab").
  - reflexivity.
  - reflexivity.
  - constructor. reflexivity.
Defined.

Lemma getquoted_never_bound_witness :
  let s := adapter "ab" NULL NULL [] [] in
  exists r s',
    binary_getquoted 3 s = Some (r, s') /\
    (calls s' = calls s \/ calls s' = calls s ++ [call_PQescapeBytea "ab"]) /\
    ((r = NULL /\ PQescapeBytea "ab" = None) \/
     exists a from' to len,
       r = Ref a /\
       PQescapeBytea from' = Some (to, len) /\
       heap s' !! a =
         Some (PyStringObject
                 (if (0 <? len)%N then ("'" ++ to ++ "'::bytea")%string
                  else "''::bytea"))).
Proof.
  apply (getquoted_never_bound 3 (Ref 0) (adapter "ab" NULL NULL [] []) "ab").
  - apply (never_bound_Binary 3 (Ref 0) (store "ab")). reflexivity.
  - constructor. reflexivity.
Defined.

Lemma wrapped_never_replaced_witness :
  let s := adapter "ab" NULL NULL [] [] in
  (exists b, heap s !! 3 = Some (binary b) /\ wrapped b = Ref 0) /\
  (forall o s',
     run 3 o s = Some (tt, s') ->
     (exists b', heap s' !! 3 = Some (binary b') /\ wrapped b' = Ref 0) /\
     (forall a (x : object),
        a <> 3 -> heap s !! a = Some x -> heap s' !! a = Some x)).
Proof.
  apply (wrapped_never_replaced 3 (Ref 0) (adapter "ab" NULL NULL [] [])).
  apply (reachable_Binary 3 (Ref 0) (store "ab")). reflexivity.
Defined.

End Concrete.

Section ConcreteOutOfMemory.

Import ScenarioOutOfMemory.

Local Existing Instance OutOfMemory.libpq.

(** C4, as stated, fails when libpq cannot allocate: nothing is cached, and
    the second binary_getquoted calls the escaping routine again. *)
Lemma getquoted_retries_after_failure :
  (let* _ := psyco_Binary [Ref 0] in
   let* r1 := binary_getquoted 1 in
   let* r2 := binary_getquoted 1 in
   ret (r1, r2)) store =
  Some ((NULL, NULL),
        adapter (Some (Exception PyExc_MemoryError None))
          [call_PQescapeBytea "ab"; call_PQescapeBytea "ab"]).
Proof. reflexivity. Qed.

(** C8, as stated, fails when libpq cannot allocate: the adapter was never
    bound, PQescapeBytea is the routine called, and no literal is
    produced. *)
Lemma getquoted_never_bound_no_literal :
  (let* _ := psyco_Binary [Ref 0] in binary_getquoted 1) store =
  Some (NULL,
        adapter (Some (Exception PyExc_MemoryError None))
          [call_PQescapeBytea "ab"]).
Proof. reflexivity. Qed.

Lemma escape_failure_leaves_no_cache_witness :
  binary_getquoted 1 (adapter None []) =
    Some (NULL,
          adapter (Some (Exception PyExc_MemoryError None))
            [call_PQescapeBytea "ab"]).
Proof.
  apply (proj2 (escape_failure_leaves_no_cache 1 (Ref 0) (adapter None [])
                  (reachable_Binary 1 (Ref 0) store (adapter None [])
                     eq_refl))
           (BinaryObject (Ref 0) NULL NULL) "ab" None false).
  - reflexivity.
  - reflexivity.
  - constructor. reflexivity.
  - constructor.
  - reflexivity.
Defined.

End ConcreteOutOfMemory.

(** ** More properties of the code *)

Section More.

Context `{Libpq}.

Implicit Types (s : state) (self : nat) (b : binaryObject) (p : pointer).

(** *** What an operation changes *)

Lemma binary_str_effect self s r s' b (o : operation) :
  o = getquoted \/ o = str ->
  heap s !! self = Some (binary b) ->
  binary_str self s = Some (r, s') ->
  exists b', heap s' !! self = Some (binary b') /\ effect o s s' b b'.
Proof.
  intros Ho Hb Hs.
  destruct (binary_str_inv _ _ _ _ Hs) as (b0 & Hb0 & Hcase).
  assert (b0 = b) by congruence. subst b0.
  destruct Hcase as [(_ & _ & ->)|[(E & _ & Hf)|(E & _ & Hq & _)]].
  - exists b. split; [exact Hb|]. repeat split; auto.
  - destruct Hf as (Hh & _ & Hc). exists b. rewrite Hh.
    split; [exact Hb|]. split; [reflexivity|]. split; [|left; reflexivity].
    destruct Hc as [Hc|(c & Hc & Hr)]; [left; auto|].
    right. left. exists c. unfold answered. rewrite Hr. auto.
  - destruct Hq as (from & pg & e & to & len & _ & _ & Hr & Hh & _ & Hc).
    assert (Hlt := lookup_adapter_lt _ _ _ Hb).
    eexists. rewrite Hh.
    rewrite list_lookup_insert_eq by (rewrite length_app; simpl; lia).
    split; [reflexivity|]. split; [reflexivity|].
    split; [|left; reflexivity].
    right. right. exists (escape_call from pg). unfold answered. rewrite Hr.
    repeat split; auto; discriminate.
Qed.

Lemma run_effect self o s s' b :
  heap s !! self = Some (binary b) ->
  run self o s = Some (tt, s') ->
  exists b', heap s' !! self = Some (binary b') /\ effect o s s' b b'.
Proof.
  intros Hb Hrun.
  assert (Hsame : forall e, exists b',
    heap (State (heap s) e (calls s)) !! self = Some (binary b') /\
    effect o s (State (heap s) e (calls s)) b b').
  { intros e. exists b. split; [exact Hb|]. repeat split; auto. }
  destruct o as [| |args|args|name v]; unfold run, bind in Hrun.
  - unfold binary_getquoted in Hrun.
    destruct (binary_str self s) as [[r s1]|] eqn:Hs; [|discriminate].
    injection Hrun as <-. eapply binary_str_effect; eauto.
  - destruct (binary_str self s) as [[r s1]|] eqn:Hs; [|discriminate].
    injection Hrun as <-. eapply binary_str_effect; eauto.
  - destruct args as [|c [|c' args]].
    + injection Hrun as <-. apply Hsame.
    + destruct (pointer_eqb c NULL) eqn:E.
      * destruct c; try discriminate. injection Hrun as <-.
        destruct s. apply Hsame.
      * assert (Hc : c <> NULL) by (intros ->; discriminate).
        rewrite (binary_prepare_one _ _ _ _ Hb Hc) in Hrun.
        injection Hrun as <-. eexists. cbn [heap calls].
        rewrite list_lookup_insert_eq by eauto using lookup_lt_Some.
        split; [reflexivity|]. repeat split; auto.
        right. exists c. auto.
    + injection Hrun as <-. apply Hsame.
  - destruct args as [|c [|c' args]]; injection Hrun as <-;
      try apply Hsame. destruct s. apply Hsame.
  - destruct (binary_setattr_refused s self name v) as (e & He).
    rewrite He in Hrun. injection Hrun as <-. apply Hsame.
Qed.

Lemma run_grows self o s s' b :
  heap s !! self = Some (binary b) ->
  run self o s = Some (tt, s') ->
  grows (heap s) (heap s').
Proof.
  intros Hb Hrun.
  destruct (run_inv _ _ _ _ _ Hb Hrun)
    as [(Hh & _)|[(c & _ & _ & Hh & _)|(_ & Hq & _)]].
  - rewrite Hh. apply grows_refl.
  - rewrite Hh. eapply grows_insert; [exact Hb|reflexivity|discriminate].
  - destruct Hq as (from & pg & e & to & len & _ & _ & _ & Hh & _).
    rewrite Hh. eapply grows_trans; [apply grows_alloc|].
    eapply grows_insert;
      [apply lookup_alloc_old, Hb|reflexivity|discriminate].
Qed.

(** X1.  An operation leaves the wrapped field as it is; it changes the
    buffer field only when that field is NULL and the operation is
    getquoted or str; it changes the conn field only when the operation is
    prepare, to the argument of prepare. *)
Theorem operation_changes_one_field self o s s' b :
  heap s !! self = Some (binary b) ->
  run self o s = Some (tt, s') ->
  exists b',
    heap s' !! self = Some (binary b') /\
    wrapped b' = wrapped b /\
    (buffer b <> NULL -> buffer b' = buffer b) /\
    (buffer b' <> buffer b -> o = getquoted \/ o = str) /\
    (conn b' <> conn b -> exists c, o = prepare [c] /\ conn b' = c).
Proof.
  intros Hb Hrun.
  destruct (run_effect _ _ _ _ _ Hb Hrun) as (b' & Hb' & Hw & Hbuf & Hconn).
  exists b'. split; [exact Hb'|]. split; [exact Hw|].
  split; [|split].
  - intros Hne.
    destruct Hbuf as [(_ & E)|[(c & _ & _ & E & _)|(c & _ & _ & E & _)]];
      [exact E|contradiction..].
  - intros Hne.
    destruct Hbuf as [(_ & E)|[(c & _ & _ & _ & _ & Ho)
                              |(c & _ & _ & _ & _ & Ho)]];
      [contradiction|exact Ho..].
  - intros Hne. destruct Hconn as [E|(c & _ & Ho & E)]; [contradiction|].
    exists c. auto.
Qed.


(** X3.  Over any sequence of operations, an adapter built around an
    object that is neither a string nor a buffer makes no call to libpq and
    never holds a literal. *)
Theorem not_bytes_never_escapes self (wr : pointer) os s s' t :
  reachable self wr s ->
  Py_TYPE wr s = Some (t, s) ->
  t <> PyString_Type -> t <> PyBuffer_Type ->
  run_all self os s = Some (tt, s') ->
  calls s' = calls s /\
  exists b', heap s' !! self = Some (binary b') /\ buffer b' = NULL.
Proof.
  intros Hreach Ht Hs Hf. revert s Hreach Ht.
  induction os as [|o os IH]; intros s Hreach Ht Hrun.
  - injection Hrun as <-. split; [reflexivity|].
    destruct (reachable_invariant _ _ _ Hreach) as (b & Hb & _ & Hcache).
    exists b. split; [exact Hb|].
    destruct Hcache as [E|(a & _ & _ & t' & Ht' & Hty)]; [exact E|].
    apply Py_TYPE_type_at in Ht. rewrite Ht in Ht'. injection Ht' as <-.
    destruct Hty; contradiction.
  - simpl in Hrun. unfold bind in Hrun.
    destruct (run self o s) as [[[] s1]|] eqn:Ho; [|discriminate].
    destruct (reachable_invariant _ _ _ Hreach) as (b & Hb & Hw & Hcache).
    assert (E : buffer b = NULL).
    { destruct Hcache as [E|(a & _ & _ & t' & Ht' & Hty)]; [exact E|].
      apply Py_TYPE_type_at in Ht. rewrite Ht in Ht'. injection Ht' as <-.
      destruct Hty; contradiction. }
    assert (Hstr : binary_str self s =
      Some (NULL, State (heap s)
              (Some (Exception PyExc_TypeError
                       (Some "can't escape non-string object")))
              (calls s))).
    { rewrite (binary_str_quote _ _ _ Hb E). rewrite <- Hw in Ht.
      rewrite (binary_quote_not_bytes _ _ _ _ Hb Ht Hs Hf).
      cbn [heap]. rewrite Hb, E. reflexivity. }
    assert (Hc1 : calls s1 = calls s).
    { destruct (run_effect _ _ _ _ _ Hb Ho) as (b1 & _ & _ & Hbuf & _).
      destruct Hbuf as [(Hc & _)|[(c & Hc & _ & _ & _ & Hgs)
                                |(c & Hc & _ & _ & _ & Hgs)]];
        [exact Hc|..];
        (destruct Hgs; subst o; unfold run, bind, binary_getquoted in Ho;
         rewrite Hstr in Ho; injection Ho as <-; reflexivity). }
    assert (Ht1 : Py_TYPE wr s1 = Some (t, s1)).
    { apply Py_TYPE_type_at. eapply type_at_grows;
        [eapply run_grows; eassumption|apply Py_TYPE_type_at, Ht]. }
    destruct (IH s1 (reachable_run _ _ _ _ _ Hreach Ho) Ht1 Hrun)
      as (Hc & Hb').
    split; [congruence|exact Hb'].
Qed.

(** *** The escaping routine and the connection *)

(** X4.  The first quoting of an adapter bound to a connection makes one
    call to libpq: to PQescapeByteaConn exactly when the extension is
    compiled against libpq 8.1.4 or later and the connection has a libpq
    connection, to PQescapeBytea exactly when it is compiled against an
    older libpq or the connection has none (it is closed). *)
Theorem escape_routine_selection s self b from a co :
  heap s !! self = Some (binary b) ->
  buffer b = NULL ->
  wraps_bytes s (wrapped b) from ->
  conn b = Ref a ->
  heap s !! a = Some (connection co) ->
  exists r s' c,
    binary_getquoted self s = Some (r, s') /\
    calls s' = calls s ++ [c] /\
    (forall pg, c = call_PQescapeByteaConn pg from <->
                (0x080104 <= PG_VERSION_HEX)%Z /\ pgconn co = Some pg) /\
    (c = call_PQescapeBytea from <->
     (PG_VERSION_HEX < 0x080104)%Z \/ pgconn co = None).
Proof.
  intros Hb E Hw Ec Ha.
  assert (Hc : bound_to s (conn b) (pgconn co) (negb (equote co =? 0)%Z)).
  { rewrite Ec. constructor. exact Ha. }
  rewrite (binary_getquoted_first _ _ _ _ _ _ Hb E Hw Hc).
  assert (Hsel :
    (forall pg, escape_call from (pgconn co) = call_PQescapeByteaConn pg from
       <-> (0x080104 <= PG_VERSION_HEX)%Z /\ pgconn co = Some pg) /\
    (escape_call from (pgconn co) = call_PQescapeBytea from <->
     (PG_VERSION_HEX < 0x080104)%Z \/ pgconn co = None)).
  { unfold escape_call.
    destruct (Z.leb_spec 0x080104 PG_VERSION_HEX) as [Hv|Hv];
      destruct (pgconn co) as [pg0|]; split;
      try (intros pg; split; [intros [= ->]|intros [? [= ->]]]; auto; lia);
      try (intros pg; split; [discriminate|intros [? ?]; congruence || lia]);
      try (split; [discriminate|intros [?|?]; congruence || lia]);
      try (split; auto). }
  destruct (call_result (escape_call from (pgconn co))) as [[to len]|];
    eexists _, _, _; (split; [reflexivity|]); (split; [reflexivity|]);
    exact Hsel.
Qed.

(** X5.  An adapter bound to a connection that has no libpq connection and
    whose equote flag is set: the bytes are escaped by PQescapeBytea, as
    for an adapter that is not bound, but the literal gets the E of the
    connection. *)
Theorem closed_connection_keeps_prefix s self b from a co to len :
  heap s !! self = Some (binary b) ->
  buffer b = NULL ->
  wraps_bytes s (wrapped b) from ->
  conn b = Ref a ->
  heap s !! a = Some (connection co) ->
  pgconn co = None ->
  equote co <> 0%Z ->
  PQescapeBytea from = Some (to, len) ->
  (0 < len)%N ->
  exists s',
    binary_getquoted self s = Some (Ref (length (heap s)), s') /\
    calls s' = calls s ++ [call_PQescapeBytea from] /\
    heap s' !! length (heap s) =
      Some (PyStringObject ("E'" ++ to ++ "'::bytea")%string).
Proof.
  intros Hb E Hw Ec Ha Hpg He Hres Hlen.
  assert (Hc : bound_to s (conn b) (pgconn co) (negb (equote co =? 0)%Z)).
  { rewrite Ec. constructor. exact Ha. }
  rewrite (binary_getquoted_first _ _ _ _ _ _ Hb E Hw Hc).
  rewrite Hpg, escape_call_unbound. cbn [call_result]. rewrite Hres.
  eexists. split; [reflexivity|]. split; [reflexivity|]. cbn [heap].
  assert (Hlt := lookup_adapter_lt _ _ _ Hb).
  rewrite list_lookup_insert_ne by lia. rewrite lookup_alloc_new.
  rewrite (literal_nonzero _ _ _ Hlen).
  destruct (Z.eqb_spec (equote co) 0); [contradiction|reflexivity].
Qed.

(** *** prepare and __conform__ *)


(** X12.  prepare and __conform__ return NULL exactly when they are not
    given one argument; they then set TypeError and change nothing else:
    the adapter keeps its connection. *)
Theorem prepare_conform_arity self (args : list pointer) s b :
  heap s !! self = Some (binary b) ->
  (length args <> 1 ->
   exists msg,
     binary_prepare self args s =
       Some (NULL, State (heap s)
                     (Some (Exception PyExc_TypeError msg)) (calls s)) /\
     binary_conform self args s =
       Some (NULL, State (heap s)
                     (Some (Exception PyExc_TypeError msg)) (calls s))) /\
  (length args = 1 ->
   (exists s', binary_prepare self args s = Some (Py_None, s')) /\
   (exists r, binary_conform self args s = Some (r, s) /\ r <> NULL)).
Proof.
  intros Hb. split.
  - intros Hlen. destruct args as [|c [|c' args]];
      [|simpl in Hlen; congruence|]; eexists; split; reflexivity.
  - intros Hlen. destruct args as [|c [|c' args]]; try discriminate.
    split.
    + destruct (pointer_eqb c NULL) eqn:E.
      * destruct c; try discriminate. eexists. reflexivity.
      * assert (Hc : c <> NULL) by (intros ->; discriminate).
        eexists. exact (binary_prepare_one _ _ _ _ Hb Hc).
    + rewrite binary_conform_one. eexists. split; [reflexivity|].
      destruct (pointer_eqb c isqlquoteType); discriminate.
Qed.

(** *** Construction *)

(** X6.  Binary(x) does not look at its argument: given one argument,
    whatever it points to, it returns a new adapter around it, at the next
    free address, with no literal and no connection, and changes nothing
    else; given another number of arguments it returns NULL with TypeError
    and the store is as it was. *)
Theorem Binary_builds_fresh_adapter (args : list pointer) s0 :
  (forall wr, args = [wr] ->
     psyco_Binary args s0 =
       Some (Ref (length (heap s0)),
             State (heap s0 ++ [binary (BinaryObject wr NULL NULL)])
               (curexc s0) (calls s0)) /\
     never_bound (length (heap s0)) wr
       (State (heap s0 ++ [binary (BinaryObject wr NULL NULL)])
          (curexc s0) (calls s0))) /\
  (length args <> 1 ->
   exists msg,
     psyco_Binary args s0 =
       Some (NULL, State (heap s0)
                     (Some (Exception PyExc_TypeError msg)) (calls s0))).
Proof.
  split.
  - intros wr ->. split; [apply psyco_Binary_one|].
    eapply never_bound_Binary. apply psyco_Binary_one.
  - intros Hlen. destruct args as [|c [|c' args]];
      [|simpl in Hlen; congruence|]; eexists; reflexivity.
Qed.

Lemma binary_init_one s self b (wr : pointer) :
  heap s !! self = Some (binary b) ->
  binary_init self [wr] s =
    Some (0%Z, State (<[self := binary (BinaryObject wr NULL NULL)]> (heap s))
                 (curexc s) (calls s)).
Proof.
  intros Hb. unfold binary_init, PyArg_ParseTuple_O.
  erewrite bind_eq by reflexivity.
  unfold binary_setup, bind, set_binary, ret. rewrite Hb. reflexivity.
Qed.

Lemma wraps_bytes_insert s a (o : object) (e : option exception)
    (log : list libpq_call) p from x :
  heap s !! a = Some x ->
  (forall v, x <> PyStringObject v) ->
  (forall v, x <> PyBufferObject v) ->
  wraps_bytes s p from ->
  wraps_bytes (State (<[a := o]> (heap s)) e log) p from.
Proof.
  intros Ha Hns Hnb [w v Hv|w v Hv];
    [apply wraps_string|apply wraps_buffer]; cbn [heap];
    (rewrite list_lookup_insert_ne; [exact Hv|]);
    intros ->; rewrite Ha in Hv; injection Hv as ->;
    [eapply Hns|eapply Hnb]; reflexivity.
Qed.

(** X7.  __init__ on an adapter that exists replaces the wrapped object
    and forgets the literal and the connection: the next getquoted escapes
    the new bytes, with PQescapeBytea, and builds a literal without the
    E. *)
Theorem init_resets_adapter s self b (wr : pointer) from :
  heap s !! self = Some (binary b) ->
  wraps_bytes s wr from ->
  exists s1,
    binary_init self [wr] s = Some (0%Z, s1) /\
    heap s1 !! self = Some (binary (BinaryObject wr NULL NULL)) /\
    exists r s2,
      binary_getquoted self s1 = Some (r, s2) /\
      calls s2 = calls s ++ [call_PQescapeBytea from] /\
      forall to len,
        PQescapeBytea from = Some (to, len) ->
        r = Ref (length (heap s)) /\
        heap s2 !! length (heap s) =
          Some (PyStringObject
                  (if (0 <? len)%N then ("'" ++ to ++ "'::bytea")%string
                   else "''::bytea")).
Proof.
  intros Hb Hw.
  assert (Hlt := lookup_adapter_lt _ _ _ Hb).
  rewrite (binary_init_one _ _ _ wr Hb).
  set (b1 := BinaryObject wr NULL NULL).
  set (s1 := State (<[self := binary b1]> (heap s)) (curexc s) (calls s)).
  assert (Hb1 : heap s1 !! self = Some (binary b1))
    by (apply list_lookup_insert_eq; exact Hlt).
  assert (Hw1 : wraps_bytes s1 (wrapped b1) from).
  { eapply wraps_bytes_insert; [exact Hb|discriminate|discriminate|exact Hw]. }
  assert (Hc1 : bound_to s1 (conn b1) None false) by constructor.
  exists s1. split; [reflexivity|]. split; [exact Hb1|].
  rewrite (binary_getquoted_first _ _ _ _ _ _ Hb1 eq_refl Hw1 Hc1).
  rewrite escape_call_unbound. cbn [call_result].
  assert (Hlen : length (heap s1) = length (heap s))
    by (apply length_insert).
  destruct (PQescapeBytea from) as [[to len]|].
  - eexists _, _. split; [reflexivity|]. split; [reflexivity|].
    intros to' len' [= <- <-]. rewrite Hlen. split; [reflexivity|].
    cbn [heap]. rewrite list_lookup_insert_ne by (rewrite <- Hlen; lia).
    rewrite <- Hlen. rewrite lookup_alloc_new. reflexivity.
  - eexists _, _. split; [reflexivity|]. split; [reflexivity|].
    discriminate.
Qed.

(** *** Results and errors *)

Lemma prepare_result self (c : pointer) s r s' :
  binary_prepare self [c] s = Some (r, s') ->
  r = Py_None /\ curexc s' = curexc s.
Proof.
  unfold binary_prepare, PyArg_ParseTuple_O.
  erewrite bind_eq by reflexivity.
  unfold bind, ret, set_conn, bind, get_binary, set_binary.
  destruct c; [intros Hr; injection Hr as <- <-; auto|..];
    (destruct (heap s !! self) as [[| | | |b]|] eqn:Hb; cbn;
     rewrite ?Hb; cbn; try discriminate;
     intros Hr; injection Hr as <- <-; auto).
Qed.

(** X8.  A method of the adapter returns NULL only with the error
    indicator set, and when it returns an object it leaves the error
    indicator as it was. *)
Theorem null_result_has_exception self m s r s' :
  invoke self m s = Some (r, s') ->
  (r = NULL -> curexc s' <> None) /\
  (r <> NULL -> curexc s' = curexc s).
Proof.
  intros Hm.
  assert (Hstr : binary_str self s = Some (r, s') ->
    (r = NULL -> curexc s' <> None) /\ (r <> NULL -> curexc s' = curexc s)).
  { intros Hs. destruct (binary_str_inv _ _ _ _ Hs) as (b & Hb & Hcase).
    destruct Hcase as [(Hne & -> & ->)|[(_ & -> & Hf)|(_ & -> & Hq & _)]].
    - split; [contradiction|reflexivity].
    - destruct Hf as (_ & Hexc & _). split; [auto|congruence].
    - destruct Hq as (from & pg & e & to & len & _ & _ & _ & _ & Hexc & _).
      split; [discriminate|auto]. }
  destruct m as [| |args|args]; cbn [invoke] in Hm.
  - apply Hstr, Hm.
  - apply Hstr, Hm.
  - destruct args as [|c [|c' args]].
    + injection Hm as <- <-. split; [discriminate|congruence].
    + destruct (prepare_result _ _ _ _ _ Hm) as (-> & ->).
      split; [discriminate|reflexivity].
    + injection Hm as <- <-. split; [discriminate|congruence].
  - destruct args as [|c [|c' args]].
    + injection Hm as <- <-. split; [discriminate|congruence].
    + rewrite binary_conform_one in Hm. injection Hm as <- <-.
      split; [|reflexivity].
      destruct (pointer_eqb c isqlquoteType); discriminate.
    + injection Hm as <- <-. split; [discriminate|congruence].
Qed.

Lemma literal_shape to len e : bytea_literal (literal to len e).
Proof.
  unfold bytea_literal, literal. destruct (0 <? len)%N; [|left; reflexivity].
  right. exists to. destruct e; [right|left]; reflexivity.
Qed.

(** X9.  In every state of the lifetime of an adapter, what getquoted
    returns is NULL or a string of one of the three shapes ''::bytea,
    '...'::bytea and E'...'::bytea. *)
Theorem getquoted_returns_literal self (wr : pointer) s r s' :
  reachable self wr s ->
  binary_getquoted self s = Some (r, s') ->
  r = NULL \/
  exists a lit,
    r = Ref a /\ heap s' !! a = Some (PyStringObject lit) /\
    bytea_literal lit.
Proof.
  intros Hreach Hs. unfold binary_getquoted in Hs.
  destruct (reachable_invariant _ _ _ Hreach) as (b & Hb & _ & Hcache).
  destruct (binary_str_inv _ _ _ _ Hs) as (b0 & Hb0 & Hcase).
  assert (b0 = b) by congruence. subst b0.
  destruct Hcase as [(Hne & -> & ->)|[(_ & -> & _)|(_ & -> & Hq & _)]].
  - destruct Hcache as [E|(a & E & Hc & _)]; [contradiction|].
    destruct Hc as (c & to & len & e & Ha & _).
    right. exists a, (literal to len e).
    split; [exact E|]. split; [exact Ha|apply literal_shape].
  - left. reflexivity.
  - destruct Hq as (from & pg & e & to & len & _ & _ & _ & Hh & _).
    assert (Hlt := lookup_adapter_lt _ _ _ Hb).
    right. exists (length (heap s)), (literal to len e).
    split; [reflexivity|]. split; [|apply literal_shape].
    rewrite Hh, list_lookup_insert_ne by lia. apply lookup_alloc_new.
Qed.

(** X10.  When the buffer the adapter wraps refuses the read, getquoted
    returns NULL with the exception of the buffer, makes no call to libpq
    and stores nothing; the adapter is not spent: once the buffer can be
    read, getquoted escapes its bytes and returns the literal. *)
Theorem unreadable_buffer_then_readable s self b a exc from pg e to len :
  heap s !! self = Some (binary b) ->
  buffer b = NULL ->
  wrapped b = Ref a ->
  heap s !! a = Some (PyBufferObject (Unreadable exc)) ->
  bound_to s (conn b) pg e ->
  call_result (escape_call from pg) = Some (to, len) ->
  binary_getquoted self s =
    Some (NULL, State (heap s) (Some exc) (calls s)) /\
  exists s2,
    binary_getquoted self
      (State (<[a := PyBufferObject (Readable from)]> (heap s))
         (Some exc) (calls s)) =
      Some (Ref (length (heap s)), s2) /\
    calls s2 = calls s ++ [escape_call from pg] /\
    heap s2 !! length (heap s) = Some (PyStringObject (literal to len e)).
Proof.
  intros Hb E Ew Ha Hc Hres. split.
  - unfold binary_getquoted. rewrite (binary_str_quote _ _ _ Hb E).
    rewrite (binary_quote_unreadable _ _ _ _ _ Hb Ew Ha).
    cbn [heap]. rewrite Hb, E. reflexivity.
  - assert (Hlt := lookup_adapter_lt _ _ _ Hb).
    assert (Hne : a <> self) by congruence.
    set (s1 := State (<[a := PyBufferObject (Readable from)]> (heap s))
                 (Some exc) (calls s)).
    assert (Hb1 : heap s1 !! self = Some (binary b)).
    { cbn [heap s1]. rewrite list_lookup_insert_ne by exact Hne. exact Hb. }
    assert (Hw1 : wraps_bytes s1 (wrapped b) from).
    { rewrite Ew. apply wraps_buffer. cbn [heap s1].
      apply list_lookup_insert_eq. eauto using lookup_lt_Some. }
    assert (Hc1 : bound_to s1 (conn b) pg e).
    { destruct Hc as [|c co Hco]; constructor. cbn [heap s1].
      rewrite list_lookup_insert_ne by congruence. exact Hco. }
    rewrite (binary_getquoted_first _ _ _ _ _ _ Hb1 E Hw1 Hc1), Hres.
    assert (Hlen : length (heap s1) = length (heap s))
      by (apply length_insert).
    rewrite Hlen. eexists. split; [reflexivity|]. split; [reflexivity|].
    cbn [heap]. rewrite list_lookup_insert_ne by lia.
    rewrite <- Hlen. apply lookup_alloc_new.
Qed.

(** *** Traversal *)

(** X13.  binary_traverse passes to [visit] the fields of the adapter that
    are not NULL, in the order wrapped, buffer, conn, each with the data
    the visit before left; it stops at the first result that is not zero and
    returns it, and returns zero otherwise.  It changes nothing in the
    store. *)
Theorem traverse_visits_references {A} obj
    (visit : pointer -> A -> Z * A) (arg : A) s b :
  heap s !! obj = Some (binary b) ->
  binary_traverse obj visit arg s =
    Some (visit_list visit (references b) arg, s).
Proof.
  intros Hb. unfold binary_traverse.
  rewrite (bind_eq _ _ _ _ _ (get_binary_at _ _ _ Hb)).
  unfold ret, references. f_equal. f_equal.
  destruct (wrapped b), (buffer b), (conn b); cbn;
    repeat match goal with
           | |- context [visit ?p ?x] =>
               destruct (visit p x) as [? ?]; cbn
           | |- context [(?v =? 0)%Z] => destruct (v =? 0)%Z; cbn
           end;
    reflexivity.
Qed.

End More.

(** ** More properties on concrete stores *)

Section MoreConcrete.

Import Scenario.

Local Existing Instance EscapeFormat.libpq.

Lemma operation_changes_one_field_witness :
  exists b',
    heap (adapter "ab" NULL (Ref 1) [] []) !! 3 = Some (binary b') /\
    wrapped b' = Ref 0 /\
    (NULL <> NULL -> buffer b' = NULL) /\
    (buffer b' <> NULL -> prepare [Ref 1] = getquoted \/
                          prepare [Ref 1] = str) /\
    (conn b' <> NULL ->
     exists c, prepare [Ref 1] = prepare [c] /\ conn b' = c).
Proof.
  apply (operation_changes_one_field 3 (prepare [Ref 1])
           (adapter "ab" NULL NULL [] []) (adapter "ab" NULL (Ref 1) [] [])
           (BinaryObject (Ref 0) NULL NULL)).
  - reflexivity.
  - reflexivity.
Defined.


Lemma not_bytes_never_escapes_witness :
  let s' := State [PyIntObject 42;
                   binary (BinaryObject (Ref 0) NULL (Ref 0))]
              (Some (Exception PyExc_TypeError
                       (Some "can't escape non-string object"))) [] in
  calls s' = calls adapter_int /\
  exists b', heap s' !! 1 = Some (binary b') /\ buffer b' = NULL.
Proof.
  apply (not_bytes_never_escapes 1 (Ref 0)
           [getquoted; prepare [Ref 0]; str] adapter_int
           (State [PyIntObject 42;
                   binary (BinaryObject (Ref 0) NULL (Ref 0))]
              (Some (Exception PyExc_TypeError
                       (Some "can't escape non-string object"))) [])
           PyInt_Type).
  - apply (reachable_Binary 1 (Ref 0) store_int). reflexivity.
  - reflexivity.
  - discriminate.
  - discriminate.
  - reflexivity.
Defined.

Lemma escape_routine_selection_witness :
  let s := adapter "ab" NULL (Ref 1) [] [] in
  exists r s' c,
    binary_getquoted 3 s = Some (r, s') /\
    calls s' = calls s ++ [c] /\
    (forall pg, c = call_PQescapeByteaConn pg "ab" <->
                (0x080104 <= PG_VERSION_HEX)%Z /\
                pgconn with_equote = Some pg) /\
    (c = call_PQescapeBytea "ab" <->
     (PG_VERSION_HEX < 0x080104)%Z \/ pgconn with_equote = None).
Proof.
  apply (escape_routine_selection (adapter "ab" NULL (Ref 1) [] []) 3
           (BinaryObject (Ref 0) NULL (Ref 1)) "ab" 1 with_equote).
  - reflexivity.
  - reflexivity.
  - constructor. reflexivity.
  - reflexivity.
  - reflexivity.
Defined.

Lemma closed_connection_keeps_prefix_witness :
  let s := State [PyStringObject "ab";
                  connection (ConnectionObject None 1);
                  binary (BinaryObject (Ref 0) NULL (Ref 1))] None [] in
  exists s',
    binary_getquoted 2 s = Some (Ref 3, s') /\
    calls s' = [call_PQescapeBytea "ab"] /\
    heap s' !! 3 = Some (PyStringObject "E'ab'::bytea").
Proof.
  apply (closed_connection_keeps_prefix
           (State [PyStringObject "ab";
                   connection (ConnectionObject None 1);
                   binary (BinaryObject (Ref 0) NULL (Ref 1))] None [])
           2 (BinaryObject (Ref 0) NULL (Ref 1)) "ab" 1
           (ConnectionObject None 1) "ab" 3).
  - reflexivity.
  - reflexivity.
  - constructor. reflexivity.
  - reflexivity.
  - reflexivity.
  - reflexivity.
  - discriminate.
  - reflexivity.
  - reflexivity.
Defined.

Lemma Binary_builds_fresh_adapter_witness :
  psyco_Binary [Ref 0] (store "ab") =
    Some (Ref 3, adapter "ab" NULL NULL [] []) /\
  never_bound 3 (Ref 0) (adapter "ab" NULL NULL [] []).
Proof.
  apply (proj1 (Binary_builds_fresh_adapter [Ref 0] (store "ab")) (Ref 0)).
  reflexivity.
Defined.

Lemma init_resets_adapter_witness :
  let s := adapter "ab" (Ref 4) (Ref 1) [PyStringObject "'ab'::bytea"]
             [call_PQescapeBytea "ab"] in
  exists s1,
    binary_init 3 [Ref 0] s = Some (0%Z, s1) /\
    heap s1 !! 3 = Some (binary (BinaryObject (Ref 0) NULL NULL)) /\
    exists r s2,
      binary_getquoted 3 s1 = Some (r, s2) /\
      calls s2 = calls s ++ [call_PQescapeBytea "ab"] /\
      forall to len,
        PQescapeBytea "ab" = Some (to, len) ->
        r = Ref 5 /\
        heap s2 !! 5 =
          Some (PyStringObject
                  (if (0 <? len)%N then ("'" ++ to ++ "'::bytea")%string
                   else "''::bytea")).
Proof.
  apply (init_resets_adapter
           (adapter "ab" (Ref 4) (Ref 1) [PyStringObject "'ab'::bytea"]
              [call_PQescapeBytea "ab"])
           3 (BinaryObject (Ref 0) (Ref 4) (Ref 1)) (Ref 0) "ab").
  - reflexivity.
  - constructor. reflexivity.
Defined.

Lemma null_result_has_exception_witness :
  let s' := State (heap adapter_int)
              (Some (Exception PyExc_TypeError
                       (Some "can't escape non-string object"))) [] in
  (NULL = NULL -> curexc s' <> None) /\
  (NULL <> NULL -> curexc s' = curexc adapter_int).
Proof.
  apply (null_result_has_exception 1 meth_getquoted adapter_int NULL
           (State (heap adapter_int)
              (Some (Exception PyExc_TypeError
                       (Some "can't escape non-string object"))) [])).
  reflexivity.
Defined.

Lemma getquoted_returns_literal_witness :
  let s' := adapter "ab" (Ref 4) NULL [PyStringObject "'ab'::bytea"]
              [call_PQescapeBytea "ab"] in
  Ref 4 = NULL \/
  exists a lit,
    Ref 4 = Ref a /\ heap s' !! a = Some (PyStringObject lit) /\
    bytea_literal lit.
Proof.
  apply (getquoted_returns_literal 3 (Ref 0) (adapter "ab" NULL NULL [] [])
           (Ref 4)
           (adapter "ab" (Ref 4) NULL [PyStringObject "'ab'::bytea"]
              [call_PQescapeBytea "ab"])).
  - apply (reachable_Binary 3 (Ref 0) (store "ab")). reflexivity.
  - reflexivity.
Defined.

Lemma unreadable_buffer_then_readable_witness :
  let exc := Exception PyExc_TypeError (Some "cannot read") in
  let s := State [PyBufferObject (Unreadable exc);
                  binary (BinaryObject (Ref 0) NULL NULL)] None [] in
  binary_getquoted 1 s = Some (NULL, State (heap s) (Some exc) (calls s)) /\
  exists s2,
    binary_getquoted 1
      (State (<[0 := PyBufferObject (Readable "ab")]> (heap s))
         (Some exc) (calls s)) = Some (Ref 2, s2) /\
    calls s2 = calls s ++ [escape_call "ab" None] /\
    heap s2 !! 2 = Some (PyStringObject (literal "ab" 3 false)).
Proof.
  apply (unreadable_buffer_then_readable
           (State [PyBufferObject
                     (Unreadable
                        (Exception PyExc_TypeError (Some "cannot read")));
                   binary (BinaryObject (Ref 0) NULL NULL)] None [])
           1 (BinaryObject (Ref 0) NULL NULL) 0
           (Exception PyExc_TypeError (Some "cannot read")) "ab" None false
           "ab" 3).
  - reflexivity.
  - reflexivity.
  - reflexivity.
  - reflexivity.
  - constructor.
  - reflexivity.
Defined.


Lemma prepare_conform_arity_witness :
  let s := adapter "ab" NULL (Ref 1) [] [] in
  exists msg,
    binary_prepare 3 [] s =
      Some (NULL, State (heap s)
                    (Some (Exception PyExc_TypeError msg)) (calls s)) /\
    binary_conform 3 [] s =
      Some (NULL, State (heap s)
                    (Some (Exception PyExc_TypeError msg)) (calls s)).
Proof.
  apply (proj1 (prepare_conform_arity 3 [] (adapter "ab" NULL (Ref 1) [] [])
                  (BinaryObject (Ref 0) NULL (Ref 1)) eq_refl)).
  discriminate.
Defined.

Lemma traverse_visits_references_witness :
  let s := adapter "ab" (Ref 4) (Ref 1) [PyStringObject "'ab'::bytea"]
             [call_PQescapeBytea "ab"] in
  binary_traverse 3 (fun p (seen : list pointer) => (0%Z, seen ++ [p])) [] s =
    Some ((0%Z, [Ref 0; Ref 4; Ref 1]), s).
Proof.
  apply (traverse_visits_references 3
           (fun p (seen : list pointer) => (0%Z, seen ++ [p])) []
           (adapter "ab" (Ref 4) (Ref 1) [PyStringObject "'ab'::bytea"]
              [call_PQescapeBytea "ab"])
           (BinaryObject (Ref 0) (Ref 4) (Ref 1))).
  reflexivity.
Defined.

End MoreConcrete.
